(** * Series pipe system: the chain propagation of [tabs/pipe_system.py]

    A shallow embedding of [render_pipe_system_tab], of
    [_display_velocity_warnings] and of the numbers
    [_display_pressure_profile] plots.  The other display functions only
    format and draw the values they are given.

    Numbers.  The Python code computes on [float] values; here they are
    exact rationals ([Q]): the arithmetic is the ideal one, without
    rounding, overflow or NaN.  Equalities that only move a value around
    are stated with Leibniz equality, algebraic ones with [Qeq] ([==]).
    Integer fields ([id], the fitting counts) are in [Z].

    Errors.  A Python exception is a value of [exn]; a computation that may
    raise returns [result A]. *)

From Stdlib Require Import List String ZArith QArith Qpower Lia Lqa Bool.
Import ListNotations.

Local Open Scope Q_scope.

(** ** Exceptions and the error monad *)

(** The exceptions the module can raise.  [DomainError] is the error class
    of the specification; no statement of the source raises it. *)
Inductive exn : Type :=
| ValueError          (* max() of an empty list *)
| IndexError          (* list index out of range *)
| ZeroDivisionError   (* float division by zero *)
| DomainError
| HelperError (msg : string).   (* raised inside calculate_pipe_losses *)

Inductive result (A : Type) : Type :=
| Ok (a : A)
| Raise (e : exn).
Arguments Ok {A} a.
Arguments Raise {A} e.

Definition bind {A B : Type} (m : result A) (k : A -> result B) : result B :=
  match m with
  | Ok a => k a
  | Raise e => Raise e
  end.

Notation "x <- m ;; k" := (bind m (fun x => k))
  (at level 61, m at next level, right associativity).

(** ** Python primitives *)

(** [x / y] on floats: raises when the divisor is zero. *)
Definition py_div (x y : Q) : result Q :=
  if Qeq_bool y 0 then Raise ZeroDivisionError else Ok (x / y).

(** [x < y] and [x > y] as booleans. *)
Definition Qltb (x y : Q) : bool := negb (Qle_bool y x).
Definition Qgtb (x y : Q) : bool := Qltb y x.

(** [math.pi]: the double nearest to pi, which is this rational exactly. *)
Definition math_pi : Q := 884279719003555 # 281474976710656.

(** [l[0]] *)
Definition py_first {A : Type} (l : list A) : result A :=
  match l with
  | [] => Raise IndexError
  | x :: _ => Ok x
  end.

(** [l[-1]] *)
Fixpoint py_last {A : Type} (l : list A) : result A :=
  match l with
  | [] => Raise IndexError
  | [x] => Ok x
  | _ :: l' => py_last l'
  end.

(** [max(l)] on integers. *)
Definition py_max (l : list Z) : result Z :=
  match l with
  | [] => Raise ValueError
  | x :: l' => Ok (fold_left Z.max l' x)
  end.

(** [sum(l)]: a left fold from 0. *)
Definition py_sum (l : list Q) : Q := fold_left Qplus l 0.

(** ** Data model *)

(** An entry of [st.session_state.pipes]. *)
Record Pipe : Type := mkPipe {
  id : Z;
  material : string;
  diameter : Q;
  length : Q;
  elevation_change : Q;
  has_contraction : bool;
  has_expansion : bool;
  has_curves : bool;
  n_curves : Z;
  has_valve_gate : bool;
  has_valve_globe : bool;
  has_valve_ball : bool;
  has_valve_check : bool;
  has_tee_through : bool;
  has_tee_branch : bool;
  n_tee_through : Z;
  n_tee_branch : Z
}.

(** The dictionary [calculate_pipe_losses] returns, by the keys read here. *)
Record Losses : Type := mkLosses {
  V : Q;
  Re : Q;
  regime : string;
  f : Q;
  h_distributed : Q;
  h_local : Q;
  h_elevation : Q;
  h_total : Q;
  K_total : Q
}.

(** An entry of [pipe_results]. *)
Record PipeResult : Type := mkPipeResult {
  r_id : Z;
  r_V : Q;
  r_Re : Q;
  r_regime : string;
  r_f : Q;
  r_h_distributed : Q;
  r_h_local : Q;
  r_h_elevation : Q;
  r_h_total : Q;
  P_in : Q;
  P_out : Q;
  r_K_total : Q
}.

(** [sidebar_data], by the keys read here. *)
Record SidebarData : Type := mkSidebar {
  rho : Q;
  mu : Q;
  pressure_inlet : Q;
  input_type : string;
  flow_rate : Q;
  velocity : Q;
  fluid_type : string
}.

(** The local variables the loop over the pipes updates. *)
Record LoopState : Type := mkLoop {
  current_pressure : Q;
  total_head_loss_system : Q;
  total_length_system : Q;
  pipe_results : list PipeResult
}.

(** What the tab hands to its display functions. *)
Record SystemResult : Type := mkSystem {
  sys_flow_rate : Q;
  sys_total_head_loss : Q;
  sys_total_length : Q;
  sys_pressure_in : Q;
  sys_pressure_out : Q;
  sys_pipe_results : list PipeResult
}.

(** ** Session state: the add and remove buttons (lines 14-43) *)

(** The segment appended by the add button. *)
Definition new_pipe (new_id : Z) : Pipe :=
  {| id := new_id;
     material := "Aço comercial";
     diameter := 1 # 10;
     length := 100;
     elevation_change := 0;
     has_contraction := false;
     has_expansion := false;
     has_curves := false;
     n_curves := 0;
     has_valve_gate := false;
     has_valve_globe := false;
     has_valve_ball := false;
     has_valve_check := false;
     has_tee_through := false;
     has_tee_branch := false;
     n_tee_through := 0;
     n_tee_branch := 0 |}.

(** How the buttons leave the script: [st.rerun()] restarts it, otherwise
    it goes on to the results. *)
Inductive control : Type := Rerun | Continue.

(** [add_clicked] and [remove_clicked] are what the two [st.button] calls
    return.  The remove button exists only when there is more than one
    segment. *)
Definition handle_buttons (add_clicked remove_clicked : bool)
    (pipes : list Pipe) : result (list Pipe * control) :=
  if add_clicked then
    m <- py_max (map id pipes) ;;
    let new_id := (m + 1)%Z in
    Ok (pipes ++ [new_pipe new_id], Rerun)
  else if (1 <? List.length pipes)%nat then
    if remove_clicked then Ok (removelast pipes, Rerun)
    else Ok (pipes, Continue)
  else Ok (pipes, Continue).

(** A session: every run of the script sees the values of the two buttons
    and leaves the segment list to the next run.  Next to the list, the run
    keeps a log of every segment ever inserted, in insertion order (what
    lies beyond the old length of the list is new). *)
Fixpoint run_session (events : list (bool * bool)) (pipes log : list Pipe)
    : result (list Pipe * list Pipe) :=
  match events with
  | [] => Ok (pipes, log)
  | (add_clicked, remove_clicked) :: events' =>
      pc <- handle_buttons add_clicked remove_clicked pipes ;;
      let pipes' := fst pc in
      run_session events' pipes' (log ++ skipn (List.length pipes) pipes')
  end.

(** [l1] is [l2] with some elements left out, the others in their order. *)
Inductive subseq {A : Type} : list A -> list A -> Prop :=
| subseq_nil : subseq [] []
| subseq_skip (x : A) (l1 l2 : list A) : subseq l1 l2 -> subseq l1 (x :: l2)
| subseq_take (x : A) (l1 l2 : list A) :
    subseq l1 l2 -> subseq (x :: l1) (x :: l2).

(** ** Sample data

    A frictionless stand-in for [calculate_pipe_losses] (the head loss of a
    segment is its elevation change), two segments and a sidebar, on which
    the properties below are run. *)

Definition sample_losses (pipe : Pipe) (flow_rate rho mu g : Q)
    : result Losses :=
  let A := math_pi * (diameter pipe / 2) ^ 2 in
  v <- py_div flow_rate A ;;
  Ok {| V := v;
        Re := rho * v * diameter pipe / mu;
        regime := "laminar";
        f := 0;
        h_distributed := 0;
        h_local := 0;
        h_elevation := elevation_change pipe;
        h_total := 0 + 0 + elevation_change pipe;
        K_total := 0 |}.

Definition sample_pipe1 : Pipe := new_pipe 1.

Definition sample_pipe2 : Pipe :=
  {| id := 2;
     material := "PVC";
     diameter := 1 # 5;
     length := 50;
     elevation_change := -10;
     has_contraction := false;
     has_expansion := false;
     has_curves := false;
     n_curves := 0;
     has_valve_gate := false;
     has_valve_globe := false;
     has_valve_ball := false;
     has_valve_check := false;
     has_tee_through := false;
     has_tee_branch := false;
     n_tee_through := 0;
     n_tee_branch := 0 |}.

Definition sample_pipes : list Pipe := [sample_pipe1; sample_pipe2].

Definition sample_sidebar : SidebarData :=
  {| rho := 998;
     mu := 1 # 1000;
     pressure_inlet := 200000;
     input_type := "Vazão (Q)";
     flow_rate := 1 # 100;
     velocity := 1;
     fluid_type := "Água" |}.

Definition sample_gravity : Q := 981 # 100.

(** A rising segment. *)
Definition sample_pipe3 : Pipe :=
  {| id := 3;
     material := "PVC";
     diameter := 3 # 20;
     length := 20;
     elevation_change := 5;
     has_contraction := false;
     has_expansion := false;
     has_curves := false;
     n_curves := 0;
     has_valve_gate := false;
     has_valve_globe := false;
     has_valve_ball := false;
     has_valve_check := false;
     has_tee_through := false;
     has_tee_branch := false;
     n_tee_through := 0;
     n_tee_branch := 0 |}.

(** Results with a velocity of [v], for the velocity warnings. *)
Definition sample_result (i : Z) (v : Q) : PipeResult :=
  {| r_id := i; r_V := v; r_Re := 0; r_regime := "laminar"; r_f := 0;
     r_h_distributed := 0; r_h_local := 0; r_h_elevation := 0;
     r_h_total := 0; P_in := 0; P_out := 0; r_K_total := 0 |}.

Definition sample_results : list PipeResult :=
  [sample_result 1 (1 # 4); sample_result 2 2; sample_result 3 5].

(** A segment whose diameter is zero: [sample_losses] raises on it. *)
Definition sample_pipe0 : Pipe :=
  {| id := 4;
     material := "PVC";
     diameter := 0;
     length := 10;
     elevation_change := 0;
     has_contraction := false;
     has_expansion := false;
     has_curves := false;
     n_curves := 0;
     has_valve_gate := false;
     has_valve_globe := false;
     has_valve_ball := false;
     has_valve_check := false;
     has_tee_through := false;
     has_tee_branch := false;
     n_tee_through := 0;
     n_tee_branch := 0 |}.

(** Clicks: add, remove three times, add (with remove also set). *)
Definition sample_events : list (bool * bool) :=
  [(true, false); (false, true); (false, true); (false, true); (true, true)].

(** ** The system calculation (lines 55-108) *)

Section PipeSystem.

(** [config.settings] and [utils.calculations] are imported by the module
    and are parameters here. *)
Variable GRAVITY : Q.
Variables WATER_VELOCITY_MIN WATER_VELOCITY_MAX AIR_VELOCITY_MAX : Q.

(** [calculate_pipe_losses(pipe, flow_rate, rho, mu, g)]; it may raise. *)
Variable calculate_pipe_losses : Pipe -> Q -> Q -> Q -> Q -> result Losses.

(** Lines 70-77: the flow rate and the velocity, one derived from the other
    through the area of the first segment.  Returns [(flow_rate, velocity)]. *)
Definition flow_specification (input_type : string) (flow_rate velocity : Q)
    (pipes : list Pipe) : result (Q * Q) :=
  if String.eqb input_type "Vazão (Q)" then
    first_pipe <- py_first pipes ;;
    let A_first := math_pi * (diameter first_pipe / 2) ^ 2 in
    velocity' <- py_div flow_rate A_first ;;
    Ok (flow_rate, velocity')
  else
    first_pipe <- py_first pipes ;;
    let A_first := math_pi * (diameter first_pipe / 2) ^ 2 in
    let flow_rate' := velocity * A_first in
    Ok (flow_rate', velocity).

(** Lines 81-104: the body of the loop, for one segment. *)
Definition process_pipe (flow_rate rho mu : Q) (st : LoopState) (pipe : Pipe)
    : result LoopState :=
  result <- calculate_pipe_losses pipe flow_rate rho mu GRAVITY ;;
  let pressure_loss := h_total result * rho * GRAVITY in
  let pressure_out := current_pressure st - pressure_loss in
  Ok {| pipe_results := pipe_results st ++
          [ {| r_id := id pipe;
               r_V := V result;
               r_Re := Re result;
               r_regime := regime result;
               r_f := f result;
               r_h_distributed := h_distributed result;
               r_h_local := h_local result;
               r_h_elevation := h_elevation result;
               r_h_total := h_total result;
               P_in := current_pressure st;
               P_out := pressure_out;
               r_K_total := K_total result |} ];
        total_head_loss_system := total_head_loss_system st + h_total result;
        total_length_system := total_length_system st + length pipe;
        current_pressure := pressure_out |}.

(** Line 80: [for pipe in st.session_state.pipes]. *)
Fixpoint process_pipes (flow_rate rho mu : Q) (pipes : list Pipe)
    (st : LoopState) : result LoopState :=
  match pipes with
  | [] => Ok st
  | pipe :: rest =>
      st' <- process_pipe flow_rate rho mu st pipe ;;
      process_pipes flow_rate rho mu rest st'
  end.

(** Lines 64-67: the state before the loop. *)
Definition initial_state (pressure_inlet : Q) : LoopState :=
  {| current_pressure := pressure_inlet;
     total_head_loss_system := 0;
     total_length_system := 0;
     pipe_results := [] |}.

(** The chain propagation proper: lines 64-67 and 80-104 for a given flow
    rate. *)
Definition propagate (pipes : list Pipe) (flow_rate rho mu pressure_inlet : Q)
    : result LoopState :=
  process_pipes flow_rate rho mu pipes (initial_state pressure_inlet).

(** Lines 55-108: from the sidebar data and the segments to the arguments of
    [_display_system_results]. *)
Definition system_calculation (sidebar_data : SidebarData) (pipes : list Pipe)
    : result SystemResult :=
  let rho := rho sidebar_data in
  let mu := mu sidebar_data in
  let pressure_inlet := pressure_inlet sidebar_data in
  fv <- flow_specification (input_type sidebar_data) (flow_rate sidebar_data)
          (velocity sidebar_data) pipes ;;
  let flow_rate := fst fv in
  st <- propagate pipes flow_rate rho mu pressure_inlet ;;
  last_result <- py_last (pipe_results st) ;;
  Ok {| sys_flow_rate := flow_rate;
        sys_total_head_loss := total_head_loss_system st;
        sys_total_length := total_length_system st;
        sys_pressure_in := pressure_inlet;
        sys_pressure_out := P_out last_result;
        sys_pipe_results := pipe_results st |}.

(** ** Velocity warnings (lines 166-187) *)

(** A warning message, by what it is about; the rendered text carries the
    segment id, the velocity and the bound. *)
Inductive warning : Type :=
| TooLowWater (seg : Z) (v bound : Q)     (* risco de sedimentação *)
| TooHighWater (seg : Z) (v bound : Q)    (* risco de erosão e ruído *)
| TooHighAir (seg : Z) (v bound : Q).

(** What the function writes to the page. *)
Inductive display : Type :=
| Markdown (text : string)
| AlertWarning (w : warning)
| Success (text : string).

(** The heading (line 168) and the message of line 187. *)
Definition checks_heading : string := "### ⚠️ Verificações".
Definition all_velocities_ok : string :=
  "✅ Todas as velocidades estão dentro das faixas recomendadas!".

(** The warnings one result contributes (lines 172-181). *)
Definition velocity_warning (fluid_type : string) (result : PipeResult)
    : list warning :=
  let V := r_V result in
  if String.eqb fluid_type "Água" then
    if Qltb V WATER_VELOCITY_MIN then
      [TooLowWater (r_id result) V WATER_VELOCITY_MIN]
    else if Qgtb V WATER_VELOCITY_MAX then
      [TooHighWater (r_id result) V WATER_VELOCITY_MAX]
    else []
  else if String.eqb fluid_type "Ar" then
    if Qgtb V AIR_VELOCITY_MAX then
      [TooHighAir (r_id result) V AIR_VELOCITY_MAX]
    else []
  else [].

(** Lines 170-181: the local list [warnings]. *)
Definition collect_warnings (pipe_results : list PipeResult)
    (fluid_type : string) : list warning :=
  fold_left (fun warnings result =>
               warnings ++ velocity_warning fluid_type result)
            pipe_results [].

(** The function returns [None] ([tt]); next to it, what it wrote to the
    page, in order. *)
Definition _display_velocity_warnings (pipe_results : list PipeResult)
    (fluid_type : string) : unit * list display :=
  let warnings := collect_warnings pipe_results fluid_type in
  (tt,
   Markdown checks_heading ::
   match warnings with
   | [] => [Success all_velocities_ok]
   | _ => map AlertWarning warnings
   end).

(** ** Pressure profile (lines 212-260) *)

(** [max(l)] on floats: the first of the greatest elements. *)
Definition py_max_Q (l : list Q) : result Q :=
  match l with
  | [] => Raise ValueError
  | x :: l' => Ok (fold_left (fun m y => if Qgtb y m then y else m) l' x)
  end.

(** An annotation of the figure: its coordinates and the id in its text. *)
Record Annotation : Type := mkAnnotation {
  a_x : Q;
  a_y : Q;
  a_trecho : Z
}.

(** What [_display_pressure_profile] plots: the two coordinate lists of the
    scatter trace and the annotations. *)
Record PressureFigure : Type := mkFigure {
  fig_positions : list Q;
  fig_pressures : list Q;
  fig_annotations : list Annotation
}.

(** Lines 219-223: the loop over [zip(pipes, pipe_results)]. *)
Fixpoint profile_points (cumulative_length : Q)
    (zipped : list (Pipe * PipeResult)) (positions pressures : list Q)
    : list Q * list Q :=
  match zipped with
  | [] => (positions, pressures)
  | (pipe, result) :: rest =>
      let cumulative_length := cumulative_length + length pipe in
      profile_points cumulative_length rest
        (positions ++ [cumulative_length])
        (pressures ++ [P_out result / 1000])
  end.

(** Lines 237-249: the annotation of segment [i]. *)
Definition annotation (pipes : list Pipe) (pressures : list Q) (i : nat)
    (pipe : Pipe) : result Annotation :=
  let x_start :=
    if Nat.eqb i 0 then 0 else py_sum (map length (firstn i pipes)) in
  let x_end := x_start + length pipe in
  m <- py_max_Q pressures ;;
  Ok {| a_x := (x_start + x_end) / 2;
        a_y := m * (105 # 100);
        a_trecho := id pipe |}.

(** Line 236: [for i, pipe in enumerate(pipes)], from index [i] on. *)
Fixpoint add_annotations (pipes : list Pipe) (pressures : list Q) (i : nat)
    (todo : list Pipe) : result (list Annotation) :=
  match todo with
  | [] => Ok []
  | pipe :: rest =>
      a <- annotation pipes pressures i pipe ;;
      others <- add_annotations pipes pressures (S i) rest ;;
      Ok (a :: others)
  end.

Definition _display_pressure_profile (pipe_results : list PipeResult)
    (pipes : list Pipe) : result PressureFigure :=
  first_result <- py_first pipe_results ;;
  let positions := [0] in
  let pressures := [P_in first_result / 1000] in
  let points :=
    profile_points 0 (combine pipes pipe_results) positions pressures in
  let positions := fst points in
  let pressures := snd points in
  annotations <- add_annotations pipes pressures 0 pipes ;;
  Ok {| fig_positions := positions;
        fig_pressures := pressures;
        fig_annotations := annotations |}.

(** The segment a warning is about. *)
Definition warning_trecho (w : warning) : Z :=
  match w with
  | TooLowWater seg _ _ => seg
  | TooHighWater seg _ _ => seg
  | TooHighAir seg _ _ => seg
  end.

(** ** What the loop records *)

(** The fields of a result that are copied from [calculate_pipe_losses]. *)
Definition losses_of (r : PipeResult) : Losses :=
  {| V := r_V r;
     Re := r_Re r;
     regime := r_regime r;
     f := r_f r;
     h_distributed := r_h_distributed r;
     h_local := r_h_local r;
     h_elevation := r_h_elevation r;
     h_total := r_h_total r;
     K_total := r_K_total r |}.

(** [r] is the entry the loop body appends for [pipe]. *)
Definition recorded (flow_rate rho mu : Q) (pipe : Pipe) (r : PipeResult)
    : Prop :=
  calculate_pipe_losses pipe flow_rate rho mu GRAVITY = Ok (losses_of r) /\
  r_id r = id pipe /\
  P_out r = P_in r - r_h_total r * rho * GRAVITY.

(** The results [rs] carry the pressure from [p] to [p_end]: each inlet is
    the outlet before it. *)
Fixpoint linked (p : Q) (rs : list PipeResult) (p_end : Q) : Prop :=
  match rs with
  | [] => p_end = p
  | r :: rs' => P_in r = p /\ linked (P_out r) rs' p_end
  end.

(** [r'] is [r] with both pressures raised by [d]. *)
Definition shifted (d : Q) (r r' : PipeResult) : Prop :=
  losses_of r' = losses_of r /\ r_id r' = r_id r /\
  P_in r' == P_in r + d /\ P_out r' == P_out r + d.

(** The running sums of [ls] from [c]: [c + l1], [c + l1 + l2], ... *)
Fixpoint running_sums (c : Q) (ls : list Q) : list Q :=
  match ls with
  | [] => []
  | l :: ls' => (c + l) :: running_sums (c + l) ls'
  end.

(** ** Lemmas on the error monad and the primitives *)

Lemma bind_Ok_inv {A B : Type} (m : result A) (k : A -> result B) (b : B) :
  bind m k = Ok b -> exists a, m = Ok a /\ k a = Ok b.
Proof.
  destruct m as [a|e]; simpl; intros H.
  - exists a; split; [reflexivity | exact H].
  - discriminate H.
Qed.

Ltac bind_inv H x Hx :=
  apply bind_Ok_inv in H; destruct H as [x [Hx H]].

Lemma losses_of_eta (l : Losses) :
  {| V := V l; Re := Re l; regime := regime l; f := f l;
     h_distributed := h_distributed l; h_local := h_local l;
     h_elevation := h_elevation l; h_total := h_total l;
     K_total := K_total l |} = l.
Proof. destruct l; reflexivity. Qed.

Lemma py_last_app {A : Type} (l : list A) (x : A) :
  py_last (l ++ [x]) = Ok x.
Proof.
  induction l as [|y l IH]; simpl; [reflexivity|].
  destruct (l ++ [x]) eqn:E; [|exact IH].
  destruct l; discriminate E.
Qed.

Lemma linked_nth (p e : Q) (rs : list PipeResult) (i : nat)
    (r1 r2 : PipeResult) :
  linked p rs e ->
  nth_error rs i = Some r1 -> nth_error rs (S i) = Some r2 ->
  P_out r1 = P_in r2.
Proof.
  revert p i; induction rs as [|r rs IH]; intros p i Hl H1 H2.
  - destruct i; discriminate H1.
  - destruct Hl as [_ Hl]. destruct i as [|i]; simpl in H1, H2.
    + injection H1 as ->. destruct rs as [|r' rs]; [discriminate H2|].
      injection H2 as ->. destruct Hl as [Hin _]. symmetry; exact Hin.
    + apply (IH _ _ Hl H1 H2).
Qed.

(** ** The loop, characterised *)

Lemma process_pipe_spec (flow_rate rho mu : Q) (st st' : LoopState)
    (pipe : Pipe) :
  process_pipe flow_rate rho mu st pipe = Ok st' ->
  exists r,
    pipe_results st' = pipe_results st ++ [r] /\
    recorded flow_rate rho mu pipe r /\
    P_in r = current_pressure st /\
    P_out r = current_pressure st' /\
    total_head_loss_system st' = total_head_loss_system st + r_h_total r /\
    total_length_system st' = total_length_system st + length pipe.
Proof.
  unfold process_pipe; intros H. bind_inv H l Hl.
  injection H as <-. eexists; split; [reflexivity|].
  unfold recorded, losses_of; simpl. rewrite losses_of_eta.
  repeat split; try reflexivity; exact Hl.
Qed.

Lemma process_pipes_spec (flow_rate rho mu : Q) (pipes : list Pipe) :
  forall st st',
  process_pipes flow_rate rho mu pipes st = Ok st' ->
  exists rs,
    pipe_results st' = pipe_results st ++ rs /\
    Forall2 (recorded flow_rate rho mu) pipes rs /\
    linked (current_pressure st) rs (current_pressure st') /\
    total_head_loss_system st' =
      fold_left Qplus (map r_h_total rs) (total_head_loss_system st) /\
    total_length_system st' =
      fold_left Qplus (map length pipes) (total_length_system st).
Proof.
  induction pipes as [|pipe rest IH]; simpl; intros st st' H.
  - injection H as <-. exists []. rewrite app_nil_r.
    repeat split; constructor.
  - bind_inv H st1 H1.
    apply process_pipe_spec in H1.
    destruct H1 as [r [Hres [Hrec [Hin [Hout [Hh Hlen]]]]]].
    destruct (IH _ _ H) as [rs [Hres' [Hall [Hlink [Hh' Hlen']]]]].
    exists (r :: rs). repeat split.
    + rewrite Hres', Hres, <- app_assoc. reflexivity.
    + constructor; assumption.
    + exact Hin.
    + rewrite Hout. exact Hlink.
    + simpl. rewrite <- Hh. exact Hh'.
    + rewrite <- Hlen. exact Hlen'.
Qed.

Lemma propagate_spec (pipes : list Pipe) (flow_rate rho mu pressure_inlet : Q)
    (st : LoopState) :
  propagate pipes flow_rate rho mu pressure_inlet = Ok st ->
  Forall2 (recorded flow_rate rho mu) pipes (pipe_results st) /\
  linked pressure_inlet (pipe_results st) (current_pressure st) /\
  total_head_loss_system st = py_sum (map r_h_total (pipe_results st)) /\
  total_length_system st = py_sum (map length pipes).
Proof.
  unfold propagate; intros H. apply process_pipes_spec in H.
  destruct H as [rs [Hres [Hall [Hlink [Hh Hlen]]]]].
  simpl in Hres; subst rs. repeat split; assumption.
Qed.

Lemma propagate_total (pipes : list Pipe) (flow_rate rho mu pressure_inlet : Q) :
  (forall pipe, In pipe pipes ->
     exists l, calculate_pipe_losses pipe flow_rate rho mu GRAVITY = Ok l) ->
  exists st, propagate pipes flow_rate rho mu pressure_inlet = Ok st.
Proof.
  unfold propagate. generalize (initial_state pressure_inlet).
  induction pipes as [|pipe rest IH]; simpl; intros st H.
  - exists st; reflexivity.
  - destruct (H pipe (or_introl eq_refl)) as [l Hl].
    unfold process_pipe at 1. rewrite Hl. simpl.
    apply IH. intros p Hp. apply H. right; exact Hp.
Qed.

Lemma Forall2_nth_error_l {A B : Type} (R : A -> B -> Prop)
    (l1 : list A) (l2 : list B) (i : nat) (a : A) :
  Forall2 R l1 l2 -> nth_error l1 i = Some a ->
  exists b, nth_error l2 i = Some b /\ R a b.
Proof.
  intros H; revert i; induction H as [|x y l1 l2 Hxy _ IH]; intros i Hi.
  - destruct i; discriminate Hi.
  - destruct i as [|i]; simpl in Hi.
    + injection Hi as ->. exists y; split; [reflexivity | exact Hxy].
    + apply (IH _ Hi).
Qed.

Lemma Forall2_In_r {A B : Type} (R : A -> B -> Prop)
    (l1 : list A) (l2 : list B) (b : B) :
  Forall2 R l1 l2 -> In b l2 -> exists a, In a l1 /\ R a b.
Proof.
  induction 1 as [|x y l1 l2 Hxy _ IH]; simpl; intros Hin.
  - contradiction.
  - destruct Hin as [<- | Hin].
    + exists x; split; [left; reflexivity | exact Hxy].
    + destruct (IH Hin) as [a [Ha HR]]. exists a; split; [right|]; assumption.
Qed.

Lemma fold_left_Qplus_acc (l : list Q) (a : Q) :
  fold_left Qplus l a == a + py_sum l.
Proof.
  unfold py_sum. revert a; induction l as [|x l IH]; simpl; intros a.
  - ring.
  - rewrite (IH (a + x)), (IH (0 + x)). ring.
Qed.

Lemma py_sum_cons (x : Q) (l : list Q) : py_sum (x :: l) == x + py_sum l.
Proof.
  unfold py_sum at 1; simpl. rewrite fold_left_Qplus_acc. ring.
Qed.

(** The pressure drops of linked results add up. *)
Lemma linked_telescope (rho g : Q) (rs : list PipeResult) :
  forall p e,
  linked p rs e ->
  Forall (fun r => P_out r = P_in r - r_h_total r * rho * g) rs ->
  e == p - rho * g * py_sum (map r_h_total rs).
Proof.
  induction rs as [|r rs IH]; simpl; intros p e Hl Hall.
  - subst e. unfold py_sum; simpl. ring.
  - destruct Hl as [Hin Hl]. inversion_clear Hall as [|? ? Hr Hrs].
    rewrite (IH _ _ Hl Hrs), py_sum_cons, Hr, Hin. ring.
Qed.

Lemma linked_monotone (rs : list PipeResult) :
  forall p e,
  linked p rs e ->
  Forall (fun r => P_out r <= P_in r) rs ->
  e <= p.
Proof.
  induction rs as [|r rs IH]; simpl; intros p e Hl Hall.
  - subst e. apply Qle_refl.
  - destruct Hl as [Hin Hl]. inversion_clear Hall as [|? ? Hr Hrs].
    apply Qle_trans with (P_out r); [apply (IH _ _ Hl Hrs)|].
    rewrite <- Hin. exact Hr.
Qed.

Lemma linked_last (rs : list PipeResult) :
  forall p e r,
  linked p rs e -> py_last rs = Ok r -> P_out r = e.
Proof.
  induction rs as [|r0 rs IH]; intros p e r Hl Hlast.
  - discriminate Hlast.
  - destruct Hl as [_ Hl]. destruct rs as [|r1 rs].
    + simpl in Hlast, Hl. injection Hlast as <-. symmetry; exact Hl.
    + apply (IH _ _ _ Hl). exact Hlast.
Qed.

Lemma recorded_drop (flow_rate rho mu : Q) (pipes : list Pipe)
    (rs : list PipeResult) :
  Forall2 (recorded flow_rate rho mu) pipes rs ->
  Forall (fun r => P_out r = P_in r - r_h_total r * rho * GRAVITY) rs.
Proof.
  induction 1 as [|pipe r ps rs' [_ [_ Hp]] _ IH]; constructor; assumption.
Qed.

Lemma Qltb_lt (x y : Q) : Qltb x y = true <-> x < y.
Proof.
  unfold Qltb. rewrite negb_true_iff. split.
  - intros H. apply Qnot_le_lt. intros Hle.
    apply Qle_bool_iff in Hle. congruence.
  - intros H. destruct (Qle_bool y x) eqn:E; [|reflexivity].
    apply Qle_bool_iff in E. exfalso. apply (Qlt_not_le _ _ H E).
Qed.

Lemma Qltb_ge (x y : Q) : Qltb x y = false <-> y <= x.
Proof.
  unfold Qltb. rewrite negb_false_iff. apply Qle_bool_iff.
Qed.

Lemma math_pi_pos : 0 < math_pi.
Proof. reflexivity. Qed.

Lemma area_pos (d : Q) : 0 < d -> 0 < math_pi * (d / 2) ^ 2.
Proof.
  intros Hd. assert (Hpi := math_pi_pos).
  assert (Hh : 0 < d / 2) by (apply Qlt_shift_div_l; lra).
  apply Qmult_lt_0_compat; [exact Hpi|].
  change ((d / 2) ^ 2) with ((d / 2) * (d / 2)).
  apply Qmult_lt_0_compat; exact Hh.
Qed.

Lemma py_div_Ok (x y : Q) : ~ y == 0 -> py_div x y = Ok (x / y).
Proof.
  intros Hy. unfold py_div. destruct (Qeq_bool y 0) eqn:E; [|reflexivity].
  apply Qeq_bool_iff in E. contradiction.
Qed.

Lemma collect_warnings_flat_map (rs : list PipeResult) (fluid_type : string) :
  collect_warnings rs fluid_type = flat_map (velocity_warning fluid_type) rs.
Proof.
  unfold collect_warnings.
  change (flat_map (velocity_warning fluid_type) rs)
    with ([] ++ flat_map (velocity_warning fluid_type) rs).
  generalize (@nil warning) as acc.
  induction rs as [|r rs IH]; simpl; intros acc.
  - rewrite app_nil_r. reflexivity.
  - rewrite IH, <- app_assoc. reflexivity.
Qed.

(** Subsequences. *)

Lemma subseq_refl {A : Type} (l : list A) : subseq l l.
Proof. induction l; constructor; assumption. Qed.

Lemma subseq_nil_l {A : Type} (l : list A) : subseq [] l.
Proof. induction l; constructor; assumption. Qed.

Lemma subseq_app_tail {A : Type} (l1 l2 l : list A) :
  subseq l1 l2 -> subseq (l1 ++ l) (l2 ++ l).
Proof.
  induction 1; simpl; [apply subseq_refl | |]; constructor; assumption.
Qed.

Lemma subseq_removelast {A : Type} (l1 l2 : list A) :
  subseq l1 l2 -> subseq (removelast l1) l2.
Proof.
  induction 1 as [|x l1 l2 _ IH|x l1 l2 H IH].
  - constructor.
  - constructor; exact IH.
  - destruct l1 as [|y l1].
    + apply subseq_nil_l.
    + change (subseq (x :: removelast (y :: l1)) (x :: l2)).
      constructor; exact IH.
Qed.

Lemma skipn_length_app {A : Type} (l l' : list A) :
  skipn (List.length l) (l ++ l') = l'.
Proof. induction l; simpl; [reflexivity | assumption]. Qed.

Lemma skipn_length_removelast {A : Type} (l : list A) :
  skipn (List.length l) (removelast l) = [].
Proof.
  apply skipn_all2.
  induction l as [|x l IH]; simpl; [lia|].
  destruct l; simpl in *; lia.
Qed.

Lemma removelast_nonempty {A : Type} (l : list A) :
  (1 < List.length l)%nat -> removelast l <> [].
Proof.
  destruct l as [|x [|y l]]; simpl; intros H; try lia. discriminate.
Qed.

Lemma py_max_nonempty (l : list Z) : l <> [] -> exists m, py_max l = Ok m.
Proof.
  destruct l as [|x l]; [contradiction|]. intros _. eexists; reflexivity.
Qed.

(** One run of the script on a non-empty list. *)
Lemma handle_buttons_step (add_clicked remove_clicked : bool)
    (pipes log : list Pipe) :
  pipes <> [] -> subseq pipes log ->
  exists pipes' c,
    handle_buttons add_clicked remove_clicked pipes = Ok (pipes', c) /\
    pipes' <> [] /\
    subseq pipes' (log ++ skipn (List.length pipes) pipes').
Proof.
  intros Hne Hsub. unfold handle_buttons. destruct add_clicked.
  - destruct (py_max_nonempty (map id pipes)) as [m Hm].
    { destruct pipes; [contradiction | discriminate]. }
    rewrite Hm. simpl bind.
    eexists; eexists; split; [reflexivity|]. split.
    + destruct pipes; discriminate.
    + rewrite skipn_length_app. apply subseq_app_tail. exact Hsub.
  - destruct (1 <? List.length pipes)%nat eqn:E; [destruct remove_clicked|].
    + apply Nat.ltb_lt in E.
      eexists; eexists; split; [reflexivity|]. split.
      * apply removelast_nonempty; exact E.
      * rewrite skipn_length_removelast, app_nil_r.
        apply subseq_removelast; exact Hsub.
    + eexists; eexists; split; [reflexivity|]. split; [exact Hne|].
      rewrite skipn_all, app_nil_r. exact Hsub.
    + eexists; eexists; split; [reflexivity|]. split; [exact Hne|].
      rewrite skipn_all, app_nil_r. exact Hsub.
Qed.

Lemma run_session_spec (events : list (bool * bool)) :
  forall pipes log,
  pipes <> [] -> subseq pipes log ->
  exists pipes' log',
    run_session events pipes log = Ok (pipes', log') /\
    pipes' <> [] /\ subseq pipes' log' /\
    exists added, log' = log ++ added.
Proof.
  induction events as [|[a r] events IH]; simpl; intros pipes log Hne Hsub.
  - exists pipes, log. repeat split; try assumption.
    exists []. rewrite app_nil_r. reflexivity.
  - destruct (handle_buttons_step a r pipes log Hne Hsub)
      as [pipes1 [c [Hstep [Hne1 Hsub1]]]].
    rewrite Hstep; simpl.
    destruct (IH _ _ Hne1 Hsub1) as [pipes' [log' [Hrun [Hne' [Hsub' [added Hlog]]]]]].
    exists pipes', log'. repeat split; try assumption.
    eexists. rewrite Hlog, <- app_assoc. reflexivity.
Qed.

Lemma flow_specification_from_flow (pipe : Pipe) (rest : list Pipe)
    (q v : Q) :
  ~ math_pi * (diameter pipe / 2) ^ 2 == 0 ->
  flow_specification "Vazão (Q)" q v (pipe :: rest) =
    Ok (q, q / (math_pi * (diameter pipe / 2) ^ 2)).
Proof.
  intros HA. unfold flow_specification. rewrite String.eqb_refl.
  cbv [py_first bind]. rewrite (py_div_Ok _ _ HA). reflexivity.
Qed.

Lemma flow_specification_from_velocity (pipe : Pipe) (rest : list Pipe)
    (other : string) (q v : Q) :
  String.eqb other "Vazão (Q)" = false ->
  flow_specification other q v (pipe :: rest) =
    Ok (v * (math_pi * (diameter pipe / 2) ^ 2), v).
Proof.
  intros Hother. unfold flow_specification. rewrite Hother. reflexivity.
Qed.

Lemma velocity_warning_water (result : PipeResult) :
  velocity_warning "Água" result =
    if Qltb (r_V result) WATER_VELOCITY_MIN then
      [TooLowWater (r_id result) (r_V result) WATER_VELOCITY_MIN]
    else if Qltb WATER_VELOCITY_MAX (r_V result) then
      [TooHighWater (r_id result) (r_V result) WATER_VELOCITY_MAX]
    else [].
Proof. reflexivity. Qed.

Lemma velocity_warning_air (result : PipeResult) :
  velocity_warning "Ar" result =
    if Qltb AIR_VELOCITY_MAX (r_V result) then
      [TooHighAir (r_id result) (r_V result) AIR_VELOCITY_MAX]
    else [].
Proof. reflexivity. Qed.

(** Closes a goal on the velocity bounds once the comparisons are known. *)
Ltac decide_bounds :=
  repeat match goal with H : _ /\ _ |- _ => destruct H end;
  first [ reflexivity | discriminate | lra | exfalso; lra ].

(** The system calculation returns a result whenever the sequence is not
    empty, the area of the first segment is not zero and
    [calculate_pipe_losses] returns for every segment. *)
Lemma system_calculation_total (sidebar_data : SidebarData) (pipe : Pipe)
    (rest : list Pipe) :
  ~ math_pi * (diameter pipe / 2) ^ 2 == 0 ->
  (forall q p, In p (pipe :: rest) ->
     exists l,
       calculate_pipe_losses p q (rho sidebar_data) (mu sidebar_data) GRAVITY
         = Ok l) ->
  exists res, system_calculation sidebar_data (pipe :: rest) = Ok res.
Proof.
  intros HA Hcalc. unfold system_calculation.
  assert (Hfv : exists fv,
            flow_specification (input_type sidebar_data)
              (flow_rate sidebar_data) (velocity sidebar_data) (pipe :: rest)
            = Ok fv).
  { destruct (String.eqb (input_type sidebar_data) "Vazão (Q)") eqn:E.
    - apply String.eqb_eq in E. rewrite E.
      eexists. apply flow_specification_from_flow. exact HA.
    - eexists. apply flow_specification_from_velocity. exact E. }
  destruct Hfv as [fv ->]. simpl bind.
  destruct (propagate_total (pipe :: rest) (fst fv) (rho sidebar_data)
              (mu sidebar_data) (pressure_inlet sidebar_data)
              (Hcalc (fst fv))) as [st Hst].
  rewrite Hst. simpl bind.
  apply propagate_spec in Hst. destruct Hst as [Hall _].
  apply Forall2_length in Hall.
  destruct (pipe_results st) as [|r rs] eqn:E; [discriminate Hall|].
  destruct (@exists_last _ (r :: rs)) as [rs' [r' Hlast]]; [discriminate|].
  rewrite Hlast, py_last_app. simpl bind. eexists; reflexivity.
Qed.

(** * Properties of the chain propagation *)

(** C1. When the chain propagation succeeds on a sequence of segments, at
    every internal junction [i], [i+1] (the sequence has at least two
    segments) both results are recorded, and the outlet pressure of result
    [i] is the inlet pressure of result [i+1]. *)
Theorem pressure_propagation (pipes : list Pipe)
    (flow_rate rho mu pressure_inlet : Q) (st : LoopState) (i : nat) :
  propagate pipes flow_rate rho mu pressure_inlet = Ok st ->
  (S i < List.length pipes)%nat ->
  exists r1 r2,
    nth_error (pipe_results st) i = Some r1 /\
    nth_error (pipe_results st) (S i) = Some r2 /\
    P_out r1 = P_in r2.
Proof.
  intros H Hi. apply propagate_spec in H.
  destruct H as [Hall [Hlink _]].
  assert (Hlen := Forall2_length Hall).
  destruct (nth_error (pipe_results st) i) as [r1|] eqn:E1.
  2:{ apply nth_error_None in E1. lia. }
  destruct (nth_error (pipe_results st) (S i)) as [r2|] eqn:E2.
  2:{ apply nth_error_None in E2. lia. }
  exists r1, r2. repeat split.
  exact (linked_nth _ _ _ _ _ _ Hlink E1 E2).
Qed.

(** C2. For every segment the chain propagation processes, the recorded
    outlet pressure is the recorded inlet pressure minus
    [h_total * rho * g], with [h_total] the total head loss
    [calculate_pipe_losses] gave for that segment; when that [h_total] is
    -10, the outlet pressure exceeds the inlet pressure by [rho * g * 10]. *)
Theorem outlet_pressure (pipes : list Pipe)
    (flow_rate rho mu pressure_inlet : Q) (st : LoopState) (i : nat)
    (pipe : Pipe) :
  propagate pipes flow_rate rho mu pressure_inlet = Ok st ->
  nth_error pipes i = Some pipe ->
  exists r l,
    nth_error (pipe_results st) i = Some r /\
    calculate_pipe_losses pipe flow_rate rho mu GRAVITY = Ok l /\
    r_h_total r = h_total l /\
    P_out r = P_in r - h_total l * rho * GRAVITY /\
    (h_total l == -10 -> P_out r - P_in r == rho * GRAVITY * 10).
Proof.
  intros H Hi. apply propagate_spec in H. destruct H as [Hall _].
  destruct (Forall2_nth_error_l _ _ _ _ _ Hall Hi) as [r [Hr [Hl [_ Hp]]]].
  exists r, (losses_of r). repeat split; try assumption.
  simpl. intros H10. rewrite Hp, H10. ring.
Qed.

(** C3. The total head loss the chain propagation accumulates is the sum of
    the [h_total] values [calculate_pipe_losses] gave, one per segment (they
    are the [h_total] of the recorded results), and the total length is the
    sum of the lengths of the segments; this holds for every sequence, the
    non-empty ones included. *)
Theorem chain_conservation (pipes : list Pipe)
    (flow_rate rho mu pressure_inlet : Q) (st : LoopState) :
  propagate pipes flow_rate rho mu pressure_inlet = Ok st ->
  exists ls,
    Forall2 (fun pipe l =>
               calculate_pipe_losses pipe flow_rate rho mu GRAVITY = Ok l)
            pipes ls /\
    map r_h_total (pipe_results st) = map h_total ls /\
    total_head_loss_system st = py_sum (map h_total ls) /\
    total_length_system st = py_sum (map length pipes).
Proof.
  intros H. apply propagate_spec in H.
  destruct H as [Hall [_ [Hh Hlen]]].
  exists (map losses_of (pipe_results st)).
  assert (Hmap : map r_h_total (pipe_results st) =
                 map h_total (map losses_of (pipe_results st))).
  { rewrite map_map. reflexivity. }
  repeat split.
  - clear Hh Hlen Hmap. induction Hall as [|pipe r ps rs [Hl _] _ IH]; simpl.
    + constructor.
    + constructor; [exact Hl | exact IH].
  - exact Hmap.
  - rewrite <- Hmap. exact Hh.
  - exact Hlen.
Qed.

(** C5. With a non-negative density and gravity, when every segment's
    [h_total] is non-negative the pressure does not increase along the
    chain: every recorded outlet pressure is at most the inlet pressure of
    the same result, and the pressure carried out of the chain is at most
    [pressure_inlet]. *)
Theorem pressure_non_increasing (pipes : list Pipe)
    (flow_rate rho mu pressure_inlet : Q) (st : LoopState) :
  0 <= rho -> 0 <= GRAVITY ->
  propagate pipes flow_rate rho mu pressure_inlet = Ok st ->
  (forall pipe l, In pipe pipes ->
     calculate_pipe_losses pipe flow_rate rho mu GRAVITY = Ok l ->
     0 <= h_total l) ->
  Forall (fun r => P_out r <= P_in r) (pipe_results st) /\
  current_pressure st <= pressure_inlet /\
  (forall r, py_last (pipe_results st) = Ok r -> P_out r <= pressure_inlet).
Proof.
  intros Hrho Hg H Hpos. apply propagate_spec in H.
  destruct H as [Hall [Hlink _]].
  assert (Hdrop : Forall (fun r => P_out r <= P_in r) (pipe_results st)).
  { apply Forall_forall. intros r Hr.
    destruct (Forall2_In_r _ _ _ _ Hall Hr) as [pipe [Hpipe [Hl [_ Hp]]]].
    specialize (Hpos _ _ Hpipe Hl). simpl in Hpos. rewrite Hp.
    assert (0 <= r_h_total r * rho * GRAVITY).
    { apply Qmult_le_0_compat; [apply Qmult_le_0_compat|]; assumption. }
    lra. }
  assert (Hend := linked_monotone _ _ _ Hlink Hdrop).
  repeat split; try assumption.
  intros r Hr. rewrite (linked_last _ _ _ _ Hlink Hr). exact Hend.
Qed.

(** C10. When the system calculation succeeds (the sequence is then
    non-empty), the final pressure it reports, the outlet pressure of the
    last result, is [pressure_inlet] minus [rho * g] times the sum of the
    [h_total] of all results, which is the total head loss it reports. *)
Theorem final_pressure_telescopes (sidebar_data : SidebarData)
    (pipes : list Pipe) (res : SystemResult) :
  system_calculation sidebar_data pipes = Ok res ->
  pipes <> [] /\
  sys_total_head_loss res = py_sum (map r_h_total (sys_pipe_results res)) /\
  sys_pressure_out res ==
    pressure_inlet sidebar_data -
    rho sidebar_data * GRAVITY * py_sum (map r_h_total (sys_pipe_results res)).
Proof.
  unfold system_calculation; intros H.
  bind_inv H fv Hfv.
  bind_inv H st Hst. bind_inv H r Hr. injection H as <-; simpl.
  apply propagate_spec in Hst. destruct Hst as [Hall [Hlink [Hh _]]].
  repeat split.
  - intros ->. assert (Hlen := Forall2_length Hall).
    destruct (pipe_results st); [discriminate Hr | discriminate Hlen].
  - exact Hh.
  - rewrite (linked_last _ _ _ _ Hlink Hr).
    apply (linked_telescope _ _ _ _ _ Hlink).
    apply (recorded_drop _ _ _ _ _ Hall).
Qed.

(** C7. In the chain propagation the fields of result [i] other than the
    two pressures are those [calculate_pipe_losses] returns for segment [i]
    alone, called with the flow rate, [rho], [mu] and [g] shared by all
    segments: two runs with the same shared values that have the same
    segment at position [i], whatever their other segments and inlet
    pressures, record the same fields for it. *)
Theorem segment_independence (pipes1 pipes2 : list Pipe)
    (flow_rate rho mu pressure_inlet1 pressure_inlet2 : Q)
    (st1 st2 : LoopState) (i : nat) (pipe : Pipe) :
  propagate pipes1 flow_rate rho mu pressure_inlet1 = Ok st1 ->
  propagate pipes2 flow_rate rho mu pressure_inlet2 = Ok st2 ->
  nth_error pipes1 i = Some pipe ->
  nth_error pipes2 i = Some pipe ->
  exists r1 r2,
    nth_error (pipe_results st1) i = Some r1 /\
    nth_error (pipe_results st2) i = Some r2 /\
    calculate_pipe_losses pipe flow_rate rho mu GRAVITY = Ok (losses_of r1) /\
    losses_of r1 = losses_of r2 /\
    r_id r1 = r_id r2.
Proof.
  intros H1 H2 Hp1 Hp2.
  apply propagate_spec in H1; destruct H1 as [Hall1 _].
  apply propagate_spec in H2; destruct H2 as [Hall2 _].
  destruct (Forall2_nth_error_l _ _ _ _ _ Hall1 Hp1) as [r1 [Hr1 [Hl1 [Hid1 _]]]].
  destruct (Forall2_nth_error_l _ _ _ _ _ Hall2 Hp2) as [r2 [Hr2 [Hl2 [Hid2 _]]]].
  exists r1, r2. repeat split; try assumption.
  - rewrite Hl1 in Hl2. congruence.
  - rewrite Hid1, Hid2. reflexivity.
Qed.

(** C6. With a first segment of diameter [d > 0] and area
    [A = pi * (d/2)^2]: the velocity derived from a flow rate [q] is [q / A],
    and the flow rate derived back from that velocity is [q]; the flow rate
    derived from a velocity [v] is [v * A], and the velocity derived back
    from that flow rate is [v].  [other] is any input type that is not the
    flow-rate one. *)
Theorem flow_velocity_round_trip (pipe : Pipe) (rest : list Pipe)
    (other : string) (q v : Q) :
  0 < diameter pipe ->
  String.eqb other "Vazão (Q)" = false ->
  let A := math_pi * (diameter pipe / 2) ^ 2 in
  (exists v',
     flow_specification "Vazão (Q)" q v (pipe :: rest) = Ok (q, v') /\
     v' == q / A /\
     exists q',
       flow_specification other q v' (pipe :: rest) = Ok (q', v') /\
       q' == q) /\
  (exists q',
     flow_specification other q v (pipe :: rest) = Ok (q', v) /\
     q' == v * A /\
     exists v',
       flow_specification "Vazão (Q)" q' v (pipe :: rest) = Ok (q', v') /\
       v' == v).
Proof.
  intros Hd Hother A.
  assert (HA : 0 < A) by (apply area_pos; exact Hd).
  assert (HA0 : ~ A == 0) by (intros E; rewrite E in HA; discriminate HA).
  split.
  - exists (q / A). split; [|split; [reflexivity|]].
    + apply flow_specification_from_flow. exact HA0.
    + exists (q / A * A). split.
      * apply flow_specification_from_velocity. exact Hother.
      * field. exact HA0.
  - exists (v * A). split; [|split; [reflexivity|]].
    + apply flow_specification_from_velocity. exact Hother.
    + exists (v * A / A). split.
      * apply flow_specification_from_flow. exact HA0.
      * field. exact HA0.
Qed.

(** C4, as the code has it.  On an empty segment sequence the system
    calculation raises [IndexError], at the lookup of the first segment
    before the loop starts, whatever the sidebar data: no list of results
    and no aggregate is produced. *)
Theorem empty_chain_raises_IndexError (sidebar_data : SidebarData) :
  system_calculation sidebar_data [] = Raise IndexError.
Proof.
  unfold system_calculation, flow_specification.
  destruct (String.eqb (input_type sidebar_data) "Vazão (Q)"); reflexivity.
Qed.

(** C8, as the code has it.  With [WATER_VELOCITY_MIN <=
    WATER_VELOCITY_MAX], [_display_velocity_warnings] returns nothing and
    writes to the page: the heading, then one alert for each warning of each
    result in order, or the success message when there is none.  The
    warnings of a result classify its velocity [V]: for water, the
    too-low warning exactly when [V < WATER_VELOCITY_MIN], the too-high
    warning exactly when [V > WATER_VELOCITY_MAX], none exactly when [V] is
    between the bounds; for air, the too-high warning exactly when
    [V > AIR_VELOCITY_MAX], none otherwise; for any other fluid, none. *)
Theorem velocity_warnings_classify (pipe_results : list PipeResult)
    (fluid_type : string) :
  WATER_VELOCITY_MIN <= WATER_VELOCITY_MAX ->
  let warnings := flat_map (velocity_warning fluid_type) pipe_results in
  _display_velocity_warnings pipe_results fluid_type =
    (tt, Markdown checks_heading ::
         match warnings with
         | [] => [Success all_velocities_ok]
         | _ => map AlertWarning warnings
         end) /\
  forall result,
    let V := r_V result in
    let w := velocity_warning fluid_type result in
    (fluid_type = "Água"%string ->
       (V < WATER_VELOCITY_MIN <->
          w = [TooLowWater (r_id result) V WATER_VELOCITY_MIN]) /\
       (WATER_VELOCITY_MAX < V <->
          w = [TooHighWater (r_id result) V WATER_VELOCITY_MAX]) /\
       (WATER_VELOCITY_MIN <= V /\ V <= WATER_VELOCITY_MAX <-> w = [])) /\
    (fluid_type = "Ar"%string ->
       (AIR_VELOCITY_MAX < V <->
          w = [TooHighAir (r_id result) V AIR_VELOCITY_MAX]) /\
       (V <= AIR_VELOCITY_MAX <-> w = [])) /\
    (fluid_type <> "Água"%string -> fluid_type <> "Ar"%string -> w = []).
Proof.
  intros Hbounds warnings. split.
  - unfold _display_velocity_warnings.
    rewrite collect_warnings_flat_map. reflexivity.
  - intros result V0 w. subst w. split; [|split].
    + intros ->. rewrite velocity_warning_water. fold V0.
      destruct (Qltb V0 WATER_VELOCITY_MIN) eqn:E1;
        [apply Qltb_lt in E1 | apply Qltb_ge in E1];
        (destruct (Qltb WATER_VELOCITY_MAX V0) eqn:E2;
           [apply Qltb_lt in E2 | apply Qltb_ge in E2]);
        repeat split; intros; decide_bounds.
    + intros ->. rewrite velocity_warning_air. fold V0.
      destruct (Qltb AIR_VELOCITY_MAX V0) eqn:E;
        [apply Qltb_lt in E | apply Qltb_ge in E];
        repeat split; intros; decide_bounds.
    + intros Hw Ha. unfold velocity_warning.
      destruct (String.eqb fluid_type "Água") eqn:E1.
      { apply String.eqb_eq in E1. contradiction. }
      destruct (String.eqb fluid_type "Ar") eqn:E2.
      { apply String.eqb_eq in E2. contradiction. }
      reflexivity.
Qed.

(** C9.  On a non-empty segment list: the add button appends one new
    segment at the end and leaves the others as they are; the remove button
    deletes the last segment when there is more than one and is absent
    otherwise; a run without a click changes nothing.  After any sequence
    of runs the list is still non-empty, and it is a subsequence of the log
    of all segments ever inserted (the initial ones, then the added ones in
    the order they were added): the surviving segments are in insertion
    order. *)
Theorem add_remove_preserve_order (events : list (bool * bool))
    (pipes : list Pipe) (remove_clicked : bool) :
  pipes <> [] ->
  (exists m,
     py_max (map id pipes) = Ok m /\
     handle_buttons true remove_clicked pipes =
       Ok (pipes ++ [new_pipe (m + 1)], Rerun)) /\
  handle_buttons false true pipes =
    (if (1 <? List.length pipes)%nat then Ok (removelast pipes, Rerun)
     else Ok (pipes, Continue)) /\
  handle_buttons false false pipes = Ok (pipes, Continue) /\
  exists pipes' log,
    run_session events pipes pipes = Ok (pipes', log) /\
    pipes' <> [] /\
    subseq pipes' log /\
    exists added, log = pipes ++ added.
Proof.
  intros Hne. repeat split.
  - destruct (py_max_nonempty (map id pipes)) as [m Hm].
    { destruct pipes; [contradiction | discriminate]. }
    exists m. split; [exact Hm|].
    unfold handle_buttons. rewrite Hm. reflexivity.
  - unfold handle_buttons. destruct (1 <? List.length pipes)%nat; reflexivity.
  - apply (run_session_spec events pipes pipes Hne (subseq_refl pipes)).
Qed.
(** * Further properties *)

(** ** The buttons and the segment ids *)

Lemma fold_left_Zmax_ge (l : list Z) :
  forall x y, In y (x :: l) -> (y <= fold_left Z.max l x)%Z.
Proof.
  induction l as [|z l IH]; simpl; intros x y Hy.
  - destruct Hy as [<- | []]. lia.
  - destruct Hy as [Hy | [Hy | Hy]].
    + apply Z.le_trans with (Z.max x z); [lia|].
      apply IH. left; reflexivity.
    + apply Z.le_trans with (Z.max x z); [lia|].
      apply IH. left; reflexivity.
    + apply IH. right; exact Hy.
Qed.

Lemma py_max_ge (l : list Z) (m : Z) :
  py_max l = Ok m -> forall y, In y l -> (y <= m)%Z.
Proof.
  destruct l as [|x l]; simpl; intros H y Hy; [discriminate H|].
  injection H as <-. apply fold_left_Zmax_ge. exact Hy.
Qed.

Lemma map_removelast {A B : Type} (g : A -> B) (l : list A) :
  map g (removelast l) = removelast (map g l).
Proof.
  induction l as [|x l IH]; [reflexivity|].
  destruct l as [|y l]; [reflexivity|].
  change (g x :: map g (removelast (y :: l)) =
          g x :: removelast (map g (y :: l))).
  rewrite IH. reflexivity.
Qed.

Lemma removelast_length {A : Type} (l : list A) :
  List.length (removelast l) = Nat.pred (List.length l).
Proof.
  induction l as [|x l IH]; [reflexivity|].
  destruct l as [|y l]; [reflexivity|].
  change (S (List.length (removelast (y :: l))) = S (List.length l)).
  rewrite IH. reflexivity.
Qed.

Lemma NoDup_removelast {A : Type} (l : list A) :
  NoDup l -> NoDup (removelast l).
Proof.
  intros H. destruct l as [|x l]; [exact H|].
  rewrite (app_removelast_last x (l := x :: l)) in H by discriminate.
  apply NoDup_app_remove_r in H. exact H.
Qed.

(** What one run of the script does to the list, case by case. *)
Lemma handle_buttons_cases (add_clicked remove_clicked : bool)
    (pipes pipes' : list Pipe) (c : control) :
  handle_buttons add_clicked remove_clicked pipes = Ok (pipes', c) ->
  (exists m, py_max (map id pipes) = Ok m /\
             pipes' = pipes ++ [new_pipe (m + 1)]) \/
  pipes' = removelast pipes \/
  pipes' = pipes.
Proof.
  unfold handle_buttons. destruct add_clicked.
  - intros H. bind_inv H m Hm. injection H as <- <-.
    left. exists m. split; [exact Hm | reflexivity].
  - destruct (1 <? List.length pipes)%nat; [destruct remove_clicked|];
      intros H; injection H as <- <-; auto.
Qed.

(** X1.  The ids stay pairwise distinct: after any sequence of runs of the
    script that starts from segments with distinct ids, the segments of the
    list have distinct ids. *)
Theorem session_ids_distinct (events : list (bool * bool)) :
  forall pipes log pipes' log',
  NoDup (map id pipes) ->
  run_session events pipes log = Ok (pipes', log') ->
  NoDup (map id pipes').
Proof.
  induction events as [|[a r] events IH]; simpl; intros pipes log pipes' log' Hnd H.
  - injection H as <- _. exact Hnd.
  - bind_inv H pc Hpc. destruct pc as [pipes1 c]. simpl in H.
    apply (IH _ _ _ _) with (2 := H).
    destruct (handle_buttons_cases _ _ _ _ _ Hpc) as [[m [Hm ->]] | [-> | ->]].
    + rewrite map_app. apply NoDup_app; [exact Hnd | |].
      * constructor; [intros [] | constructor].
      * intros y Hy [<- | []]. apply (py_max_ge _ _ Hm) in Hy.
        simpl in Hy. lia.
    + rewrite map_removelast. apply NoDup_removelast. exact Hnd.
    + exact Hnd.
Qed.

Lemma fold_left_Zmax_seq (k : nat) :
  forall a,
  fold_left Z.max (map Z.of_nat (seq (S a) k)) (Z.of_nat a) =
  Z.of_nat (a + k).
Proof.
  induction k as [|k IH]; cbn [seq map fold_left]; intros a.
  - rewrite Nat.add_0_r. reflexivity.
  - replace (Z.max (Z.of_nat a) (Z.of_nat (S a))) with (Z.of_nat (S a))
      by lia.
    rewrite IH. f_equal. lia.
Qed.

(** X2.  When the segments are numbered 1, 2, ..., n in order, they still
    are after any sequence of runs of the script: the id of a segment is its
    position in the list, counted from 1. *)
Theorem session_ids_consecutive (events : list (bool * bool)) :
  forall pipes log pipes' log',
  map id pipes = map Z.of_nat (seq 1 (List.length pipes)) ->
  run_session events pipes log = Ok (pipes', log') ->
  map id pipes' = map Z.of_nat (seq 1 (List.length pipes')).
Proof.
  induction events as [|[a r] events IH]; simpl; intros pipes log pipes' log' Hid H.
  - injection H as <- _. exact Hid.
  - bind_inv H pc Hpc. destruct pc as [pipes1 c]. simpl in H.
    apply (IH _ _ _ _) with (2 := H).
    destruct (handle_buttons_cases _ _ _ _ _ Hpc) as [[m [Hm ->]] | [-> | ->]].
    + rewrite Hid in Hm. destruct (List.length pipes) as [|n] eqn:En.
      { discriminate Hm. }
      cbn [seq map py_max] in Hm. rewrite fold_left_Zmax_seq in Hm.
      injection Hm as <-.
      rewrite map_app, length_app, Hid, En. cbn [List.length].
      rewrite Nat.add_1_r, (seq_S (S n)), map_app. cbn [map id new_pipe].
      do 3 f_equal. lia.
    + rewrite map_removelast, Hid, removelast_length.
      destruct (List.length pipes) as [|n]; [reflexivity|].
      cbn [Nat.pred]. rewrite seq_S, map_app. apply removelast_last.
    + exact Hid.
Qed.

(** X3.  A run of the script fails at the buttons in one case only: the add
    button clicked on an empty list, where [max] of no id raises
    [ValueError]. *)
Theorem handle_buttons_raises (add_clicked remove_clicked : bool)
    (pipes : list Pipe) (e : exn) :
  handle_buttons add_clicked remove_clicked pipes = Raise e <->
  add_clicked = true /\ pipes = [] /\ e = ValueError.
Proof.
  unfold handle_buttons. split.
  - destruct add_clicked.
    + destruct pipes as [|p ps]; simpl; intros H; [|discriminate H].
      injection H as <-. auto.
    + destruct (1 <? List.length pipes)%nat; [destruct remove_clicked|];
        discriminate.
  - intros [-> [-> ->]]. reflexivity.
Qed.

(** ** The flow specification and the chain *)

Lemma area_zero (d : Q) : math_pi * (d / 2) ^ 2 == 0 <-> d == 0.
Proof.
  change ((d / 2) ^ 2) with ((d / 2) * (d / 2)). split.
  - intros H. apply Qmult_integral in H. destruct H as [H | H].
    + discriminate H.
    + assert (Hd : d / 2 == 0)
        by (apply Qmult_integral in H; destruct H; assumption).
      assert (E : d == d / 2 * 2) by field. rewrite E, Hd. ring.
  - intros ->. reflexivity.
Qed.

(** X4.  The flow specification fails in two cases only: on an empty list
    ([IndexError], in both input modes), and in the flow-rate mode when the
    diameter of the first segment is zero ([ZeroDivisionError]).  In the
    velocity mode a zero diameter is no error. *)
Theorem flow_specification_raises (input_type : string) (q v : Q)
    (pipes : list Pipe) (e : exn) :
  flow_specification input_type q v pipes = Raise e <->
  (pipes = [] /\ e = IndexError) \/
  (exists pipe rest,
     pipes = pipe :: rest /\ input_type = "Vazão (Q)"%string /\
     diameter pipe == 0 /\ e = ZeroDivisionError).
Proof.
  unfold flow_specification. split.
  - destruct pipes as [|pipe rest].
    + destruct (String.eqb input_type "Vazão (Q)"); simpl; intros H;
        injection H as <-; left; auto.
    + destruct (String.eqb input_type "Vazão (Q)") eqn:E;
        cbv [py_first bind py_div]; [|discriminate].
      destruct (Qeq_bool (math_pi * (diameter pipe / 2) ^ 2) 0) eqn:EA;
        [|discriminate].
      intros H; injection H as <-. right. exists pipe, rest.
      apply String.eqb_eq in E. apply Qeq_bool_iff in EA.
      apply (proj1 (area_zero _)) in EA. auto.
  - intros [[-> ->] | [pipe [rest [-> [-> [Hd ->]]]]]].
    + destruct (String.eqb input_type "Vazão (Q)"); reflexivity.
    + rewrite String.eqb_refl. cbv [py_first bind]. unfold py_div.
      apply (proj2 (area_zero _)) in Hd.
      apply (proj2 (Qeq_bool_iff _ _)) in Hd. rewrite Hd. reflexivity.
Qed.

(** X5.  The results follow the segments: when the chain propagation
    succeeds there is one result per segment, and the ids of the results
    are the ids of the segments, in the same order. *)
Theorem results_follow_segments (pipes : list Pipe)
    (flow_rate rho mu pressure_inlet : Q) (st : LoopState) :
  propagate pipes flow_rate rho mu pressure_inlet = Ok st ->
  map r_id (pipe_results st) = map id pipes.
Proof.
  intros H. apply propagate_spec in H. destruct H as [Hall _].
  induction Hall as [|pipe r ps rs [_ [Hid _]] _ IH]; simpl.
  - reflexivity.
  - rewrite Hid, IH. reflexivity.
Qed.

(** The characterisation of the loop is complete: results that are the
    recorded ones and carry the pressure on are what the loop produces. *)
Lemma process_pipes_complete (flow_rate rho mu : Q) (pipes : list Pipe)
    (rs : list PipeResult) :
  Forall2 (recorded flow_rate rho mu) pipes rs ->
  forall st e,
  linked (current_pressure st) rs e ->
  process_pipes flow_rate rho mu pipes st =
    Ok {| current_pressure := e;
          total_head_loss_system :=
            fold_left Qplus (map r_h_total rs) (total_head_loss_system st);
          total_length_system :=
            fold_left Qplus (map length pipes) (total_length_system st);
          pipe_results := pipe_results st ++ rs |}.
Proof.
  induction 1 as [|pipe r ps rs' [Hl [Hid Hp]] _ IH]; simpl; intros st e Hlink.
  - subst e. rewrite app_nil_r. destruct st; reflexivity.
  - destruct Hlink as [Hin Hlink]. unfold process_pipe at 1.
    rewrite Hl. cbn [bind].
    match goal with
    | |- process_pipes _ _ _ _ ?st1 = _ =>
        assert (E : st1 =
                  {| current_pressure := P_out r;
                     total_head_loss_system :=
                       total_head_loss_system st + r_h_total r;
                     total_length_system :=
                       total_length_system st + length pipe;
                     pipe_results := pipe_results st ++ [r] |})
    end.
    { destruct r; simpl in *. subst. reflexivity. }
    rewrite E.
    match goal with
    | |- process_pipes _ _ _ _ ?st1 = _ => rewrite (IH st1 e Hlink)
    end.
    cbn [current_pressure total_head_loss_system total_length_system
         pipe_results].
    rewrite <- app_assoc. reflexivity.
Qed.

Lemma linked_split (rs1 rs2 : list PipeResult) :
  forall p e,
  linked p (rs1 ++ rs2) e ->
  exists m, linked p rs1 m /\ linked m rs2 e.
Proof.
  induction rs1 as [|r rs1 IH]; simpl; intros p e H.
  - exists p. split; [reflexivity | exact H].
  - destruct H as [Hin H]. destruct (IH _ _ H) as [m [H1 H2]].
    exists m. repeat split; assumption.
Qed.

Lemma py_sum_app (l1 l2 : list Q) :
  py_sum (l1 ++ l2) == py_sum l1 + py_sum l2.
Proof.
  unfold py_sum at 1. rewrite fold_left_app, fold_left_Qplus_acc.
  reflexivity.
Qed.

(** X6.  A chain splits at any junction: the propagation over [l1 ++ l2]
    is the propagation over [l1], followed by the propagation over [l2]
    started at the outlet pressure of [l1].  The results are the two result
    lists one after the other (so the results of [l1] do not depend on what
    follows), and the totals add up. *)
Theorem chain_splits (l1 l2 : list Pipe)
    (flow_rate rho mu pressure_inlet : Q) (st : LoopState) :
  propagate (l1 ++ l2) flow_rate rho mu pressure_inlet = Ok st ->
  exists st1 st2,
    propagate l1 flow_rate rho mu pressure_inlet = Ok st1 /\
    propagate l2 flow_rate rho mu (current_pressure st1) = Ok st2 /\
    pipe_results st = pipe_results st1 ++ pipe_results st2 /\
    current_pressure st = current_pressure st2 /\
    total_head_loss_system st ==
      total_head_loss_system st1 + total_head_loss_system st2 /\
    total_length_system st ==
      total_length_system st1 + total_length_system st2.
Proof.
  intros H. apply propagate_spec in H.
  destruct H as [Hall [Hlink [Hh Hlen]]].
  apply Forall2_app_inv_l in Hall.
  destruct Hall as [rs1 [rs2 [Hall1 [Hall2 Hrs]]]].
  rewrite Hrs in Hlink. apply linked_split in Hlink.
  destruct Hlink as [m [Hlink1 Hlink2]].
  eexists; eexists. split; [|split].
  - unfold propagate.
    apply (process_pipes_complete _ _ _ _ _ Hall1 (initial_state _) m Hlink1).
  - unfold propagate. cbn [current_pressure].
    apply (process_pipes_complete _ _ _ _ _ Hall2 (initial_state _) _ Hlink2).
  - cbn [pipe_results current_pressure total_head_loss_system
         total_length_system initial_state app].
    repeat split.
    + exact Hrs.
    + rewrite Hh, Hrs, map_app. apply py_sum_app.
    + rewrite Hlen, map_app. apply py_sum_app.
Qed.

(** X7.  The first failure ends the propagation: when
    [calculate_pipe_losses] returns for the segments of [l1] and raises [e]
    on the next one, the propagation raises [e], whatever the segments
    after it, and the results of [l1] are lost. *)
Theorem first_failure_propagates (l1 l2 : list Pipe) (pipe : Pipe)
    (flow_rate rho mu pressure_inlet : Q) (e : exn) :
  (forall p, In p l1 ->
     exists l, calculate_pipe_losses p flow_rate rho mu GRAVITY = Ok l) ->
  calculate_pipe_losses pipe flow_rate rho mu GRAVITY = Raise e ->
  propagate (l1 ++ pipe :: l2) flow_rate rho mu pressure_inlet = Raise e.
Proof.
  intros Hok Hfail. unfold propagate.
  generalize (initial_state pressure_inlet).
  induction l1 as [|p l1 IH]; simpl; intros st.
  - unfold process_pipe. rewrite Hfail. reflexivity.
  - destruct (Hok p (or_introl eq_refl)) as [l Hl].
    unfold process_pipe at 1. rewrite Hl. cbn [bind].
    apply IH. intros p' Hp'. apply Hok. right; exact Hp'.
Qed.

Lemma process_pipes_shift (flow_rate rho mu d : Q) (pipes : list Pipe) :
  forall st1 st1' st2,
  process_pipes flow_rate rho mu pipes st1 = Ok st2 ->
  current_pressure st1' == current_pressure st1 + d ->
  exists st2' rs rs',
    process_pipes flow_rate rho mu pipes st1' = Ok st2' /\
    pipe_results st2 = pipe_results st1 ++ rs /\
    pipe_results st2' = pipe_results st1' ++ rs' /\
    Forall2 (shifted d) rs rs' /\
    current_pressure st2' == current_pressure st2 + d /\
    total_head_loss_system st2' =
      fold_left Qplus (map r_h_total rs) (total_head_loss_system st1') /\
    total_length_system st2' =
      fold_left Qplus (map length pipes) (total_length_system st1').
Proof.
  induction pipes as [|pipe rest IH]; simpl; intros st1 st1' st2 H Hcp.
  - injection H as <-. exists st1', [], []. rewrite !app_nil_r.
    repeat split; try reflexivity; [constructor | exact Hcp].
  - bind_inv H sta Ha. unfold process_pipe in Ha. bind_inv Ha l Hl.
    injection Ha as <-. unfold process_pipe at 1. rewrite Hl. cbn [bind].
    match goal with
    | |- context [process_pipes _ _ _ rest ?s = _] => set (sta' := s)
    end.
    destruct (IH _ sta' _ H) as [st2' [rs [rs' [H' [Hr [Hr' [Hall [Hcp' [Hh Hlen]]]]]]]]].
    { subst sta'. cbn [current_pressure]. rewrite Hcp. ring. }
    cbn [pipe_results] in Hr. subst sta'.
    cbn [pipe_results total_head_loss_system total_length_system] in Hr', Hh, Hlen.
    eexists st2', (_ :: rs), (_ :: rs'). split; [exact H'|].
    split; [rewrite Hr, <- app_assoc; reflexivity|].
    split; [rewrite Hr', <- app_assoc; reflexivity|].
    split; [|split; [exact Hcp'|split; [exact Hh | exact Hlen]]].
    constructor; [|exact Hall].
    unfold shifted, losses_of; cbn.
    repeat split; try reflexivity; [exact Hcp | rewrite Hcp; ring].
Qed.

(** X8.  Raising the inlet pressure by [d] raises every recorded inlet and
    outlet pressure, and the pressure at the end of the chain, by [d]; the
    other fields of the results and the two totals do not change. *)
Theorem inlet_pressure_shift (pipes : list Pipe)
    (flow_rate rho mu pressure_inlet d : Q) (st : LoopState) :
  propagate pipes flow_rate rho mu pressure_inlet = Ok st ->
  exists st',
    propagate pipes flow_rate rho mu (pressure_inlet + d) = Ok st' /\
    Forall2 (shifted d) (pipe_results st) (pipe_results st') /\
    current_pressure st' == current_pressure st + d /\
    total_head_loss_system st' = total_head_loss_system st /\
    total_length_system st' = total_length_system st.
Proof.
  unfold propagate. intros H.
  destruct (process_pipes_shift flow_rate rho mu d pipes
              (initial_state pressure_inlet)
              (initial_state (pressure_inlet + d)) st H)
    as [st' [rs [rs' [H' [Hr [Hr' [Hall [Hcp [Hh Hlen]]]]]]]]].
  { reflexivity. }
  apply process_pipes_spec in H.
  destruct H as [rs0 [Hr0 [_ [_ [Hh0 Hlen0]]]]].
  cbn [initial_state pipe_results app total_head_loss_system
       total_length_system] in *.
  rewrite Hr in Hr0. subst rs0.
  exists st'. split; [exact H'|]. split; [|split; [exact Hcp|split]].
  - rewrite Hr, Hr'. exact Hall.
  - rewrite Hh, Hh0. reflexivity.
  - rewrite Hlen, Hlen0. reflexivity.
Qed.

Lemma linked_prefix (rs : list PipeResult) :
  forall p e k r,
  linked p rs e -> nth_error rs k = Some r ->
  linked p (firstn k rs) (P_in r).
Proof.
  induction rs as [|r0 rs IH]; intros p e k r Hl Hk.
  - destruct k; discriminate Hk.
  - destruct Hl as [Hin Hl]. destruct k as [|k]; simpl in Hk |- *.
    + injection Hk as <-. exact Hin.
    + split; [exact Hin | apply (IH _ _ _ _ Hl Hk)].
Qed.

Lemma Forall_firstn' {A : Type} (P : A -> Prop) (l : list A) :
  forall k, Forall P l -> Forall P (firstn k l).
Proof.
  induction l as [|x l IH]; intros [|k] H; simpl; try constructor.
  - inversion H; assumption.
  - apply IH. inversion H; assumption.
Qed.

(** X9.  The pressure at a junction is given by the losses before it: the
    inlet pressure recorded for segment [k] is [pressure_inlet] minus
    [rho * g] times the sum of the [h_total] of the segments before [k]. *)
Theorem junction_pressure (pipes : list Pipe)
    (flow_rate rho mu pressure_inlet : Q) (st : LoopState) (k : nat)
    (r : PipeResult) :
  propagate pipes flow_rate rho mu pressure_inlet = Ok st ->
  nth_error (pipe_results st) k = Some r ->
  P_in r ==
    pressure_inlet -
    rho * GRAVITY * py_sum (map r_h_total (firstn k (pipe_results st))).
Proof.
  intros H Hk. apply propagate_spec in H. destruct H as [Hall [Hlink _]].
  apply (linked_telescope rho GRAVITY).
  - apply (linked_prefix _ _ _ _ _ Hlink Hk).
  - apply Forall_firstn'. apply (recorded_drop _ _ _ _ _ Hall).
Qed.

(** ** The velocity warnings *)

Lemma flat_map_nil {A B : Type} (g : A -> list B) (l : list A) :
  flat_map g l = [] <-> Forall (fun x => g x = []) l.
Proof.
  induction l as [|x l IH]; simpl.
  - split; [constructor | reflexivity].
  - split.
    + intros H. apply app_eq_nil in H. destruct H as [Hx Hl].
      constructor; [exact Hx | apply IH; exact Hl].
    + intros H. inversion_clear H as [|? ? Hx Hl].
      rewrite Hx. apply IH. exact Hl.
Qed.

Lemma success_iff_no_warning (rs : list PipeResult) (fluid_type : string) :
  snd (_display_velocity_warnings rs fluid_type) =
    [Markdown checks_heading; Success all_velocities_ok] <->
  Forall (fun r => velocity_warning fluid_type r = []) rs.
Proof.
  unfold _display_velocity_warnings. rewrite collect_warnings_flat_map.
  cbn [snd]. rewrite <- flat_map_nil.
  destruct (flat_map (velocity_warning fluid_type) rs) as [|w ws].
  - split; reflexivity.
  - split; discriminate.
Qed.

Lemma Forall_iff {A : Type} (P R : A -> Prop) (l : list A) :
  (forall x, P x <-> R x) -> (Forall P l <-> Forall R l).
Proof.
  intros H. split; intros HF; apply Forall_forall; intros x Hx;
    apply H; revert x Hx; apply Forall_forall; exact HF.
Qed.

(** X10.  The success message is shown exactly when no velocity is out of
    range: for water when every [V] is between [WATER_VELOCITY_MIN] and
    [WATER_VELOCITY_MAX], for air when every [V] is at most
    [AIR_VELOCITY_MAX]; for any other fluid it is always shown, whatever
    the velocities. *)
Theorem velocity_success_iff (rs : list PipeResult) (fluid_type : string) :
  let shown := snd (_display_velocity_warnings rs fluid_type) in
  let success := [Markdown checks_heading; Success all_velocities_ok] in
  (fluid_type = "Água"%string ->
     (shown = success <->
      Forall (fun r => WATER_VELOCITY_MIN <= r_V r /\
                       r_V r <= WATER_VELOCITY_MAX) rs)) /\
  (fluid_type = "Ar"%string ->
     (shown = success <-> Forall (fun r => r_V r <= AIR_VELOCITY_MAX) rs)) /\
  (fluid_type <> "Água"%string -> fluid_type <> "Ar"%string ->
     shown = success).
Proof.
  intros shown success. subst shown success. split; [|split].
  - intros ->. rewrite success_iff_no_warning. apply Forall_iff. intros r.
    rewrite velocity_warning_water.
    destruct (Qltb (r_V r) WATER_VELOCITY_MIN) eqn:E1;
      [apply Qltb_lt in E1 | apply Qltb_ge in E1];
      (destruct (Qltb WATER_VELOCITY_MAX (r_V r)) eqn:E2;
         [apply Qltb_lt in E2 | apply Qltb_ge in E2]);
      split; intros; decide_bounds.
  - intros ->. rewrite success_iff_no_warning. apply Forall_iff. intros r.
    rewrite velocity_warning_air.
    destruct (Qltb AIR_VELOCITY_MAX (r_V r)) eqn:E;
      [apply Qltb_lt in E | apply Qltb_ge in E];
      split; intros; decide_bounds.
  - intros Hw Ha. apply success_iff_no_warning. apply Forall_forall.
    intros r _. unfold velocity_warning.
    destruct (String.eqb fluid_type "Água") eqn:E1.
    { apply String.eqb_eq in E1. contradiction. }
    destruct (String.eqb fluid_type "Ar") eqn:E2.
    { apply String.eqb_eq in E2. contradiction. }
    reflexivity.
Qed.

Lemma velocity_warning_cases (fluid_type : string) (r : PipeResult) :
  velocity_warning fluid_type r = [] \/
  exists w, velocity_warning fluid_type r = [w] /\ warning_trecho w = r_id r.
Proof.
  unfold velocity_warning.
  destruct (String.eqb fluid_type "Água").
  - destruct (Qltb (r_V r) WATER_VELOCITY_MIN);
      [right; eexists; split; reflexivity|].
    destruct (Qgtb (r_V r) WATER_VELOCITY_MAX);
      [right; eexists; split; reflexivity | left; reflexivity].
  - destruct (String.eqb fluid_type "Ar"); [|left; reflexivity].
    destruct (Qgtb (r_V r) AIR_VELOCITY_MAX);
      [right; eexists; split; reflexivity | left; reflexivity].
Qed.

(** X11.  A result gets at most one warning, and the warnings come in the
    order of the results, each with the id of its result: the ids of the
    warnings are a subsequence of the ids of the results. *)
Theorem warnings_follow_results (rs : list PipeResult) (fluid_type : string) :
  let warnings := collect_warnings rs fluid_type in
  subseq (map warning_trecho warnings) (map r_id rs) /\
  (List.length warnings <= List.length rs)%nat.
Proof.
  intros warnings. subst warnings. rewrite collect_warnings_flat_map.
  induction rs as [|r rs [IH1 IH2]]; simpl.
  - split; [constructor | lia].
  - destruct (velocity_warning_cases fluid_type r) as [-> | [w [-> Hw]]];
      simpl.
    + split; [constructor; exact IH1 | lia].
    + rewrite Hw. split; [constructor; exact IH1 | lia].
Qed.

(** ** The pressure profile *)

Lemma profile_points_spec (zipped : list (Pipe * PipeResult)) :
  forall c positions pressures,
  profile_points c zipped positions pressures =
    (positions ++ running_sums c (map (fun pr => length (fst pr)) zipped),
     pressures ++ map (fun pr => P_out (snd pr) / 1000) zipped).
Proof.
  induction zipped as [|[pipe r] z IH]; simpl; intros c positions pressures.
  - rewrite !app_nil_r. reflexivity.
  - rewrite IH, <- !app_assoc. reflexivity.
Qed.

Lemma running_sums_length (ls : list Q) :
  forall c, List.length (running_sums c ls) = List.length ls.
Proof.
  induction ls as [|l ls IH]; simpl; intros c; [reflexivity|].
  rewrite IH. reflexivity.
Qed.

Lemma running_sums_nth (ls : list Q) :
  forall c k,
  (k < List.length ls)%nat ->
  nth_error (running_sums c ls) k =
    Some (fold_left Qplus (firstn (S k) ls) c).
Proof.
  induction ls as [|l ls IH]; simpl; intros c k Hk; [lia|].
  destruct k as [|k]; simpl.
  - reflexivity.
  - apply (IH (c + l) k). lia.
Qed.

Lemma firstn_map_combine {A B C : Type} (g : A -> C) (l1 : list A) :
  forall (l2 : list B) k,
  (k <= Nat.min (List.length l1) (List.length l2))%nat ->
  firstn k (map (fun pr => g (fst pr)) (combine l1 l2)) =
    map g (firstn k l1).
Proof.
  induction l1 as [|x l1 IH]; intros l2 k Hk; simpl in Hk.
  - assert (k = 0%nat) by lia. subst k. reflexivity.
  - destruct l2 as [|y l2]; simpl in Hk.
    + assert (k = 0%nat) by lia. subst k. reflexivity.
    + destruct k as [|k]; simpl; [reflexivity|].
      rewrite IH by lia. reflexivity.
Qed.

Lemma map_snd_combine {A B : Type} (l1 : list A) :
  forall l2 : list B,
  map snd (combine l1 l2) = firstn (List.length l1) l2.
Proof.
  induction l1 as [|x l1 IH]; intros [|y l2]; simpl; try reflexivity.
  rewrite IH. reflexivity.
Qed.

(** [max] keeps an element that is at least every other. *)
Lemma py_max_Q_spec (l : list Q) (m : Q) :
  py_max_Q l = Ok m -> In m l /\ forall y, In y l -> y <= m.
Proof.
  destruct l as [|x l]; simpl; intros H; [discriminate H|].
  injection H as <-. revert x.
  induction l as [|z l IH]; simpl; intros x.
  - split; [left; reflexivity|]. intros y [<- | []]. apply Qle_refl.
  - set (s := if Qgtb z x then z else x).
    assert (Hs : s = z \/ s = x)
      by (subst s; destruct (Qgtb z x); [left | right]; reflexivity).
    assert (Hx : x <= s).
    { subst s. unfold Qgtb. destruct (Qltb x z) eqn:E; [|apply Qle_refl].
      apply Qltb_lt in E. apply Qlt_le_weak; exact E. }
    assert (Hz : z <= s).
    { subst s. unfold Qgtb. destruct (Qltb x z) eqn:E; [apply Qle_refl|].
      apply Qltb_ge in E. exact E. }
    destruct (IH s) as [Hin Hge]. clearbody s. split.
    + destruct Hin as [Hin | Hin]; [|right; right; exact Hin].
      destruct Hs as [Hs | Hs]; [right; left | left]; congruence.
    + intros y [Hy | [Hy | Hy]].
      * subst y. apply Qle_trans with (1 := Hx). apply Hge. left; reflexivity.
      * subst y. apply Qle_trans with (1 := Hz). apply Hge. left; reflexivity.
      * apply Hge. right; exact Hy.
Qed.

Lemma add_annotations_spec (pipes : list Pipe) (pressures : list Q) (m : Q) :
  py_max_Q pressures = Ok m ->
  forall todo i,
  exists anns,
    add_annotations pipes pressures i todo = Ok anns /\
    List.length anns = List.length todo /\
    forall j pipe,
      nth_error todo j = Some pipe ->
      exists a,
        nth_error anns j = Some a /\
        annotation pipes pressures (i + j) pipe = Ok a.
Proof.
  intros Hm. induction todo as [|pipe rest IH]; intros i; simpl.
  - exists []. repeat split. intros [|j] p Hj; discriminate Hj.
  - unfold annotation at 1. rewrite Hm. cbn [bind].
    destruct (IH (S i)) as [anns [Hrun [Hlen Hnth]]].
    rewrite Hrun. cbn [bind]. eexists. split; [reflexivity|].
    split; [simpl; rewrite Hlen; reflexivity|].
    intros [|j] p Hj; simpl in Hj.
    + injection Hj as <-. eexists. split; [reflexivity|].
      rewrite Nat.add_0_r. unfold annotation. rewrite Hm. reflexivity.
    + destruct (Hnth j p Hj) as [a [Ha Hann]].
      exists a. split; [exact Ha|].
      rewrite <- plus_n_Sm. exact Hann.
Qed.

(** The figure, in closed form. *)
Lemma _display_pressure_profile_spec (r : PipeResult)
    (rs : list PipeResult) (pipes : list Pipe) :
  exists anns m,
    _display_pressure_profile (r :: rs) pipes =
      Ok {| fig_positions :=
              0 :: running_sums 0
                     (map (fun pr => length (fst pr)) (combine pipes (r :: rs)));
            fig_pressures :=
              (P_in r / 1000) ::
              map (fun r' => P_out r' / 1000)
                  (firstn (List.length pipes) (r :: rs));
            fig_annotations := anns |} /\
    py_max_Q ((P_in r / 1000) ::
              map (fun r' => P_out r' / 1000)
                  (firstn (List.length pipes) (r :: rs))) = Ok m /\
    List.length anns = List.length pipes /\
    forall j pipe,
      nth_error pipes j = Some pipe ->
      nth_error anns j =
        Some {| a_x :=
                  ((if Nat.eqb j 0 then 0
                    else py_sum (map length (firstn j pipes))) +
                   ((if Nat.eqb j 0 then 0
                     else py_sum (map length (firstn j pipes))) +
                    length pipe)) / 2;
                a_y := m * (105 # 100);
                a_trecho := id pipe |}.
Proof.
  unfold _display_pressure_profile. cbn [py_first bind].
  rewrite profile_points_spec. cbn [fst snd app].
  rewrite <- (map_map snd (fun r' => P_out r' / 1000)), map_snd_combine.
  set (pressures := (P_in r / 1000) :: _).
  assert (Hm : exists m, py_max_Q pressures = Ok m)
    by (eexists; reflexivity).
  destruct Hm as [m Hm].
  destruct (add_annotations_spec pipes pressures m Hm pipes 0%nat)
    as [anns [Hrun [Hlen Hnth]]].
  exists anns, m. rewrite Hrun. cbn [bind].
  split; [reflexivity|]. split; [exact Hm|]. split; [exact Hlen|].
  intros j pipe Hj. destruct (Hnth j pipe Hj) as [a [Ha Hann]].
  rewrite Ha. f_equal. cbn [Nat.add] in Hann.
  unfold annotation in Hann. rewrite Hm in Hann. cbn [bind] in Hann.
  injection Hann as <-. reflexivity.
Qed.

(** X12.  Drawing the profile fails in one case only: on an empty list of
    results, where [pipe_results[0]] raises [IndexError].  With a result to
    start from, [max(pressures)] is always defined. *)
Theorem profile_raises (pipe_results : list PipeResult) (pipes : list Pipe)
    (e : exn) :
  _display_pressure_profile pipe_results pipes = Raise e <->
  pipe_results = [] /\ e = IndexError.
Proof.
  split.
  - destruct pipe_results as [|r rs].
    + intros H. injection H as <-. auto.
    + destruct (_display_pressure_profile_spec r rs pipes)
        as [anns [m [Hfig _]]].
      rewrite Hfig. discriminate.
  - intros [-> ->]. reflexivity.
Qed.

(** X13.  The figure has one point more than there are pairs of a segment
    and a result, in both coordinate lists, and one annotation per
    segment. *)
Theorem profile_point_count (pipe_results : list PipeResult)
    (pipes : list Pipe) (fig : PressureFigure) :
  _display_pressure_profile pipe_results pipes = Ok fig ->
  let n := Nat.min (List.length pipes) (List.length pipe_results) in
  List.length (fig_positions fig) = S n /\
  List.length (fig_pressures fig) = S n /\
  List.length (fig_annotations fig) = List.length pipes.
Proof.
  destruct pipe_results as [|r rs]; [discriminate|].
  destruct (_display_pressure_profile_spec r rs pipes)
    as [anns [m [Hfig [_ [Hlen _]]]]].
  rewrite Hfig. intros H; injection H as <-. cbn [fig_positions
    fig_pressures fig_annotations]. repeat split.
  - cbn [List.length]. rewrite running_sums_length, length_map, length_combine.
    reflexivity.
  - cbn [List.length]. rewrite length_map, length_firstn. reflexivity.
  - exact Hlen.
Qed.

Lemma profile_positions_nth (r : PipeResult) (rs : list PipeResult)
    (pipes : list Pipe) (k : nat) :
  (k <= Nat.min (List.length pipes) (List.length (r :: rs)))%nat ->
  nth_error
    (0 :: running_sums 0
            (map (fun pr => length (fst pr)) (combine pipes (r :: rs)))) k =
    Some (py_sum (map length (firstn k pipes))).
Proof.
  intros Hk. destruct k as [|k]; [reflexivity|].
  cbn [nth_error]. rewrite running_sums_nth.
  - rewrite firstn_map_combine by exact Hk. reflexivity.
  - rewrite length_map, length_combine. lia.
Qed.

(** X14.  The positions are the cumulative lengths: point [k] of the
    profile lies at the sum of the lengths of the first [k] segments, the
    first point at 0. *)
Theorem profile_positions (pipe_results : list PipeResult)
    (pipes : list Pipe) (fig : PressureFigure) (k : nat) :
  _display_pressure_profile pipe_results pipes = Ok fig ->
  (k <= Nat.min (List.length pipes) (List.length pipe_results))%nat ->
  nth_error (fig_positions fig) k =
    Some (py_sum (map length (firstn k pipes))).
Proof.
  destruct pipe_results as [|r rs]; [discriminate|].
  destruct (_display_pressure_profile_spec r rs pipes)
    as [anns [m [Hfig _]]].
  rewrite Hfig. intros H; injection H as <-. cbn [fig_positions].
  apply profile_positions_nth.
Qed.

Lemma firstn_S_nth {A : Type} (l : list A) :
  forall i x, nth_error l i = Some x -> firstn (S i) l = firstn i l ++ [x].
Proof.
  induction l as [|y l IH]; intros [|i] x H; try discriminate H.
  - injection H as <-. reflexivity.
  - simpl in H. cbn [firstn app]. rewrite <- (IH i x H). reflexivity.
Qed.

Lemma py_sum_firstn_S (pipes : list Pipe) (i : nat) (pipe : Pipe) :
  nth_error pipes i = Some pipe ->
  py_sum (map length (firstn (S i) pipes)) =
    py_sum (map length (firstn i pipes)) + length pipe.
Proof.
  intros H. rewrite (firstn_S_nth _ _ _ H), map_app. unfold py_sum.
  rewrite fold_left_app. reflexivity.
Qed.

(** X15.  The label of a segment is centred on it: for a segment that has
    a result, the annotation carries the id of the segment and lies halfway
    between the two points of the profile that delimit the segment. *)
Theorem annotation_centred (pipe_results : list PipeResult)
    (pipes : list Pipe) (fig : PressureFigure) (i : nat) (pipe : Pipe) :
  _display_pressure_profile pipe_results pipes = Ok fig ->
  nth_error pipes i = Some pipe ->
  (i < List.length pipe_results)%nat ->
  exists a x0 x1,
    nth_error (fig_annotations fig) i = Some a /\
    nth_error (fig_positions fig) i = Some x0 /\
    nth_error (fig_positions fig) (S i) = Some x1 /\
    a_x a = (x0 + x1) / 2 /\
    a_trecho a = id pipe.
Proof.
  destruct pipe_results as [|r rs]; [discriminate|].
  destruct (_display_pressure_profile_spec r rs pipes)
    as [anns [m [Hfig [_ [_ Hnth]]]]].
  rewrite Hfig. intros H Hi Hlt; injection H as <-.
  cbn [fig_positions fig_annotations].
  assert (Hip : (i < List.length pipes)%nat)
    by (apply nth_error_Some; rewrite Hi; discriminate).
  eexists; eexists; eexists. split; [apply (Hnth i pipe Hi)|].
  split; [apply profile_positions_nth; lia|].
  split; [apply profile_positions_nth; lia|].
  cbn [a_x a_trecho]. split; [|reflexivity].
  rewrite (py_sum_firstn_S _ _ _ Hi).
  destruct i; reflexivity.
Qed.

(** X16.  With segments of non-negative length the positions of the profile
    do not decrease from one point to the next. *)
Theorem profile_positions_monotone (pipe_results : list PipeResult)
    (pipes : list Pipe) (fig : PressureFigure) (k : nat) (x0 x1 : Q) :
  Forall (fun pipe => 0 <= length pipe) pipes ->
  _display_pressure_profile pipe_results pipes = Ok fig ->
  nth_error (fig_positions fig) k = Some x0 ->
  nth_error (fig_positions fig) (S k) = Some x1 ->
  x0 <= x1.
Proof.
  intros Hpos Hfig H0 H1.
  destruct (profile_point_count _ _ _ Hfig) as [Hlen _].
  assert (Hk : (S k < List.length (fig_positions fig))%nat)
    by (apply nth_error_Some; rewrite H1; discriminate).
  rewrite Hlen in Hk.
  rewrite (profile_positions _ _ _ k Hfig) in H0 by lia.
  rewrite (profile_positions _ _ _ (S k) Hfig) in H1 by lia.
  destruct (nth_error pipes k) as [pipe|] eqn:E.
  2:{ apply nth_error_None in E. lia. }
  rewrite (py_sum_firstn_S _ _ _ E) in H1.
  injection H0 as <-. injection H1 as <-.
  assert (Hl : 0 <= length pipe).
  { apply nth_error_In in E. revert pipe E. apply Forall_forall. exact Hpos. }
  lra.
Qed.

(** X17.  All labels are at one height, 1.05 times the greatest plotted
    pressure; when that pressure is not negative, no point of the profile is
    above the labels. *)
Theorem labels_above_profile (pipe_results : list PipeResult)
    (pipes : list Pipe) (fig : PressureFigure) :
  _display_pressure_profile pipe_results pipes = Ok fig ->
  exists m,
    In m (fig_pressures fig) /\
    (forall p, In p (fig_pressures fig) -> p <= m) /\
    (forall a, In a (fig_annotations fig) -> a_y a = m * (105 # 100)) /\
    (0 <= m ->
     forall a p,
       In a (fig_annotations fig) -> In p (fig_pressures fig) -> p <= a_y a).
Proof.
  destruct pipe_results as [|r rs]; [discriminate|].
  destruct (_display_pressure_profile_spec r rs pipes)
    as [anns [m [Hfig [Hm [Hlen Hnth]]]]].
  rewrite Hfig. intros H; injection H as <-.
  cbn [fig_pressures fig_annotations].
  apply py_max_Q_spec in Hm. destruct Hm as [Hin Hge].
  assert (Hy : forall a, In a anns -> a_y a = m * (105 # 100)).
  { intros a Ha. apply In_nth_error in Ha. destruct Ha as [j Hj].
    assert (Hjl : (j < List.length pipes)%nat).
    { rewrite <- Hlen. apply nth_error_Some. rewrite Hj. discriminate. }
    destruct (nth_error pipes j) as [pipe|] eqn:E.
    2:{ apply nth_error_None in E. lia. }
    rewrite (Hnth j pipe E) in Hj. injection Hj as <-. reflexivity. }
  exists m. repeat split; try assumption.
  intros Hm0 a p Ha Hp. rewrite (Hy a Ha). specialize (Hge p Hp). lra.
Qed.

Lemma py_last_nth {A : Type} (l : list A) (x : A) :
  py_last l = Ok x -> nth_error l (Nat.pred (List.length l)) = Some x.
Proof.
  induction l as [|y l IH]; [discriminate|].
  destruct l as [|z l].
  - intros H. injection H as <-. reflexivity.
  - intros H. apply (IH H).
Qed.

(** X18.  The profile of a computed system: when the system calculation
    succeeds, the profile is drawn from its results without error, with one
    point more than there are segments.  Point [k] is the inlet pressure of
    segment [k] and point [k+1] its outlet pressure, in kPa; the first point
    is the inlet pressure of the system and the last one its final
    pressure. *)
Theorem profile_of_system (sidebar_data : SidebarData) (pipes : list Pipe)
    (res : SystemResult) :
  system_calculation sidebar_data pipes = Ok res ->
  exists fig,
    _display_pressure_profile (sys_pipe_results res) pipes = Ok fig /\
    List.length (fig_pressures fig) = S (List.length pipes) /\
    (forall k r,
       nth_error (sys_pipe_results res) k = Some r ->
       nth_error (fig_pressures fig) k = Some (P_in r / 1000) /\
       nth_error (fig_pressures fig) (S k) = Some (P_out r / 1000)) /\
    nth_error (fig_pressures fig) 0 =
      Some (pressure_inlet sidebar_data / 1000) /\
    nth_error (fig_pressures fig) (List.length pipes) =
      Some (sys_pressure_out res / 1000).
Proof.
  unfold system_calculation; intros H.
  bind_inv H fv Hfv. bind_inv H st Hst. bind_inv H rl Hlast.
  injection H as <-. cbn [sys_pipe_results sys_pressure_out].
  apply propagate_spec in Hst. destruct Hst as [Hall [Hlink _]].
  assert (Hlen := Forall2_length Hall).
  destruct (pipe_results st) as [|r0 rs] eqn:Ers; [discriminate Hlast|].
  destruct (_display_pressure_profile_spec r0 rs pipes)
    as [anns [m [Hfig _]]].
  rewrite Hlen, firstn_all in Hfig.
  eexists. split; [exact Hfig|]. cbn [fig_pressures].
  assert (Hout : forall k r,
            nth_error (r0 :: rs) k = Some r ->
            nth_error (map (fun r' => P_out r' / 1000) (r0 :: rs)) k =
              Some (P_out r / 1000)).
  { intros k r Hk. rewrite nth_error_map, Hk. reflexivity. }
  split; [|split; [|split]].
  - cbn [List.length]. rewrite length_map, Hlen. reflexivity.
  - intros k r Hk. split; [|apply (Hout k r Hk)].
    destruct k as [|k].
    + injection Hk as <-. reflexivity.
    + destruct (nth_error (r0 :: rs) k) as [rk|] eqn:Ek.
      2:{ apply nth_error_None in Ek.
          assert (S k < List.length (r0 :: rs))%nat
            by (apply nth_error_Some; rewrite Hk; discriminate).
          lia. }
      change (nth_error (map (fun r' => P_out r' / 1000) (r0 :: rs)) k =
              Some (P_in r / 1000)).
      rewrite (Hout k rk Ek), (linked_nth _ _ _ _ _ _ Hlink Ek Hk).
      reflexivity.
  - destruct Hlink as [Hin _]. cbn [nth_error]. rewrite Hin. reflexivity.
  - apply py_last_nth in Hlast. rewrite Hlen.
    change (nth_error (map (fun r' => P_out r' / 1000) (r0 :: rs))
              (Nat.pred (List.length (r0 :: rs))) =
            Some (P_out rl / 1000)).
    apply (Hout _ _ Hlast).
Qed.

Lemma process_pipes_raises (flow_rate rho mu : Q) (pipes : list Pipe)
    (e : exn) :
  forall st,
  process_pipes flow_rate rho mu pipes st = Raise e ->
  exists pipe,
    In pipe pipes /\
    calculate_pipe_losses pipe flow_rate rho mu GRAVITY = Raise e.
Proof.
  induction pipes as [|pipe rest IH]; simpl; intros st H; [discriminate H|].
  unfold process_pipe at 1 in H.
  destruct (calculate_pipe_losses pipe flow_rate rho mu GRAVITY)
    as [l|e'] eqn:El; cbn [bind] in H.
  - destruct (IH _ H) as [p [Hp Hr]]. exists p. split; [right|]; assumption.
  - injection H as ->. exists pipe. split; [left; reflexivity | exact El].
Qed.

(** X19.  The system calculation has no error of its own beyond those of
    the flow specification: when it raises, either the flow specification
    raised (empty list, or zero first diameter in the flow-rate mode), or
    [calculate_pipe_losses] raised on one of the segments.  The lookup of
    the last result never fails. *)
Theorem system_calculation_raises (sidebar_data : SidebarData)
    (pipes : list Pipe) (e : exn) :
  system_calculation sidebar_data pipes = Raise e ->
  flow_specification (input_type sidebar_data) (flow_rate sidebar_data)
    (velocity sidebar_data) pipes = Raise e \/
  exists fv pipe,
    flow_specification (input_type sidebar_data) (flow_rate sidebar_data)
      (velocity sidebar_data) pipes = Ok fv /\
    In pipe pipes /\
    calculate_pipe_losses pipe (fst fv) (rho sidebar_data) (mu sidebar_data)
      GRAVITY = Raise e.
Proof.
  unfold system_calculation.
  destruct (flow_specification (input_type sidebar_data)
              (flow_rate sidebar_data) (velocity sidebar_data) pipes)
    as [fv|e'] eqn:Efv; cbn [bind].
  2:{ intros H. injection H as ->. left. reflexivity. }
  destruct (propagate pipes (fst fv) (rho sidebar_data) (mu sidebar_data)
              (pressure_inlet sidebar_data)) as [st|e'] eqn:Est; cbn [bind].
  - apply propagate_spec in Est. destruct Est as [Hall _].
    apply Forall2_length in Hall.
    destruct pipes as [|pipe rest].
    { unfold flow_specification in Efv.
      destruct (String.eqb (input_type sidebar_data) "Vazão (Q)");
        discriminate Efv. }
    destruct (pipe_results st) as [|r rs] eqn:E; [discriminate Hall|].
    destruct (@exists_last _ (r :: rs)) as [rs' [r' Hlast]]; [discriminate|].
    rewrite Hlast, py_last_app. discriminate.
  - intros H. injection H as ->. right.
    apply process_pipes_raises in Est. destruct Est as [pipe [Hin Hr]].
    exists fv, pipe. repeat split; assumption.
Qed.


End PipeSystem.

(** * The properties on the sample data *)

(** Runs the evaluation of a computation that is known to succeed. *)
Ltac run_as x H :=
  match goal with
  | |- context [?m = Ok _] =>
      destruct m as [x|?] eqn:H; [|vm_compute in H; discriminate H]
  end.

Lemma pressure_propagation_witness :
  exists st r1 r2,
    propagate sample_gravity sample_losses sample_pipes
      (1 # 100) 998 (1 # 1000) 200000 = Ok st /\
    nth_error (pipe_results st) 0 = Some r1 /\
    nth_error (pipe_results st) 1 = Some r2 /\
    P_out r1 = P_in r2.
Proof.
  run_as st Hrun. exists st.
  destruct (pressure_propagation sample_gravity sample_losses sample_pipes
              (1 # 100) 998 (1 # 1000) 200000 st 0%nat)
    as [r1 [r2 [H1 [H2 H3]]]].
  - exact Hrun.
  - simpl; lia.
  - exists r1, r2. repeat split; assumption.
Defined.

Lemma outlet_pressure_witness :
  exists st r,
    propagate sample_gravity sample_losses sample_pipes
      (1 # 100) 998 (1 # 1000) 200000 = Ok st /\
    nth_error (pipe_results st) 1 = Some r /\
    P_out r - P_in r == 998 * sample_gravity * 10.
Proof.
  run_as st Hrun. exists st.
  destruct (outlet_pressure sample_gravity sample_losses sample_pipes
              (1 # 100) 998 (1 # 1000) 200000 st 1%nat sample_pipe2)
    as [r [l [Hr [Hl [_ [_ H10]]]]]].
  - exact Hrun.
  - reflexivity.
  - exists r. repeat split; [exact Hr|].
    apply H10. vm_compute in Hl. injection Hl as <-. reflexivity.
Defined.

Lemma chain_conservation_witness :
  exists st,
    propagate sample_gravity sample_losses sample_pipes
      (1 # 100) 998 (1 # 1000) 200000 = Ok st /\
    total_head_loss_system st = py_sum (map r_h_total (pipe_results st)) /\
    total_length_system st = py_sum (map length sample_pipes).
Proof.
  run_as st Hrun. exists st.
  destruct (chain_conservation sample_gravity sample_losses sample_pipes
              (1 # 100) 998 (1 # 1000) 200000 st)
    as [ls [_ [Hmap [Hh Hlen]]]].
  - exact Hrun.
  - repeat split; [rewrite Hmap; exact Hh | exact Hlen].
Defined.

Lemma pressure_non_increasing_witness :
  exists st,
    propagate sample_gravity sample_losses [sample_pipe1; sample_pipe3]
      (1 # 100) 998 (1 # 1000) 200000 = Ok st /\
    Forall (fun r => P_out r <= P_in r) (pipe_results st) /\
    current_pressure st <= 200000.
Proof.
  run_as st Hrun. exists st.
  destruct (pressure_non_increasing sample_gravity sample_losses
              [sample_pipe1; sample_pipe3] (1 # 100) 998 (1 # 1000) 200000 st)
    as [Hall [Hend _]].
  - vm_compute; discriminate.
  - vm_compute; discriminate.
  - exact Hrun.
  - intros pipe l [<- | [<- | []]] Hl; vm_compute in Hl; injection Hl as <-;
      vm_compute; discriminate.
  - repeat split; assumption.
Defined.

Lemma final_pressure_telescopes_witness :
  exists res,
    system_calculation sample_gravity sample_losses sample_sidebar
      sample_pipes = Ok res /\
    sys_pressure_out res ==
      200000 - 998 * sample_gravity *
               py_sum (map r_h_total (sys_pipe_results res)).
Proof.
  run_as res Hrun. exists res.
  destruct (final_pressure_telescopes sample_gravity sample_losses
              sample_sidebar sample_pipes res) as [_ [_ H]].
  - exact Hrun.
  - split; [reflexivity | exact H].
Defined.

Lemma segment_independence_witness :
  exists st1 st2 r1 r2,
    propagate sample_gravity sample_losses [sample_pipe1; sample_pipe2]
      (1 # 100) 998 (1 # 1000) 200000 = Ok st1 /\
    propagate sample_gravity sample_losses
      [sample_pipe3; sample_pipe2; sample_pipe1]
      (1 # 100) 998 (1 # 1000) 150000 = Ok st2 /\
    nth_error (pipe_results st1) 1 = Some r1 /\
    nth_error (pipe_results st2) 1 = Some r2 /\
    losses_of r1 = losses_of r2.
Proof.
  destruct (propagate sample_gravity sample_losses
              [sample_pipe1; sample_pipe2] (1 # 100) 998 (1 # 1000) 200000)
    as [st1|?] eqn:Hrun1; [|vm_compute in Hrun1; discriminate Hrun1].
  destruct (propagate sample_gravity sample_losses
              [sample_pipe3; sample_pipe2; sample_pipe1]
              (1 # 100) 998 (1 # 1000) 150000)
    as [st2|?] eqn:Hrun2; [|vm_compute in Hrun2; discriminate Hrun2].
  exists st1, st2.
  destruct (segment_independence sample_gravity sample_losses
              [sample_pipe1; sample_pipe2]
              [sample_pipe3; sample_pipe2; sample_pipe1]
              (1 # 100) 998 (1 # 1000) 200000 150000 st1 st2 1%nat
              sample_pipe2)
    as [r1 [r2 [H1 [H2 [_ [H _]]]]]].
  - exact Hrun1.
  - exact Hrun2.
  - reflexivity.
  - reflexivity.
  - exists r1, r2. repeat split; assumption.
Defined.

Lemma flow_velocity_round_trip_witness :
  exists v' q',
    flow_specification "Vazão (Q)" (1 # 100) 2 [sample_pipe1] =
      Ok (1 # 100, v') /\
    flow_specification "Velocidade (V)" (1 # 100) v' [sample_pipe1] =
      Ok (q', v') /\
    q' == 1 # 100.
Proof.
  destruct (flow_velocity_round_trip sample_pipe1 [] "Velocidade (V)"
              (1 # 100) 2) as [[v' [H1 [_ [q' [H2 H3]]]]] _].
  - reflexivity.
  - reflexivity.
  - exists v', q'. repeat split; assumption.
Defined.

(** On an empty list the loop alone ends at once, without an error; the
    error of the system calculation is [IndexError], not [DomainError]. *)
Lemma empty_chain_not_DomainError :
  propagate sample_gravity sample_losses [] (1 # 100) 998 (1 # 1000) 200000 =
    Ok (initial_state 200000) /\
  system_calculation sample_gravity sample_losses sample_sidebar [] =
    Raise IndexError /\
  system_calculation sample_gravity sample_losses sample_sidebar [] <>
    Raise DomainError.
Proof.
  repeat split. discriminate.
Qed.

(** Without any result to check, the function still writes twice to the
    page, and what it returns is not a list. *)
Lemma velocity_check_displays :
  _display_velocity_warnings (1 # 2) 3 20 [] "Água" =
    (tt, [Markdown checks_heading; Success all_velocities_ok]) /\
  snd (_display_velocity_warnings (1 # 2) 3 20 [] "Água") <> [].
Proof.
  split; [reflexivity | discriminate].
Qed.

Lemma velocity_warnings_classify_witness :
  _display_velocity_warnings (1 # 2) 3 20 sample_results "Água" =
    (tt, [Markdown checks_heading;
          AlertWarning (TooLowWater 1 (1 # 4) (1 # 2));
          AlertWarning (TooHighWater 3 5 3)]).
Proof.
  destruct (velocity_warnings_classify (1 # 2) 3 20 sample_results "Água")
    as [H _].
  - vm_compute; discriminate.
  - rewrite H. reflexivity.
Defined.

Lemma add_remove_preserve_order_witness :
  exists pipes' log,
    run_session sample_events sample_pipes sample_pipes = Ok (pipes', log) /\
    pipes' <> [] /\
    subseq pipes' log.
Proof.
  destruct (add_remove_preserve_order sample_events sample_pipes false)
    as [_ [_ [_ [pipes' [log [H1 [H2 [H3 _]]]]]]]].
  - discriminate.
  - exists pipes', log. repeat split; assumption.
Defined.

(** * The further properties on the sample data *)

Lemma session_ids_distinct_witness :
  exists pipes' log',
    run_session sample_events sample_pipes sample_pipes = Ok (pipes', log') /\
    NoDup (map id pipes').
Proof.
  destruct (run_session sample_events sample_pipes sample_pipes)
    as [[pipes' log']|?] eqn:Hrun; [|vm_compute in Hrun; discriminate Hrun].
  exists pipes', log'. split; [reflexivity|].
  apply (session_ids_distinct sample_events sample_pipes sample_pipes
           pipes' log'); [|exact Hrun].
  repeat constructor; simpl; intuition discriminate.
Defined.

Lemma session_ids_consecutive_witness :
  exists pipes' log',
    run_session sample_events sample_pipes sample_pipes = Ok (pipes', log') /\
    map id pipes' = map Z.of_nat (seq 1 (List.length pipes')).
Proof.
  destruct (run_session sample_events sample_pipes sample_pipes)
    as [[pipes' log']|?] eqn:Hrun; [|vm_compute in Hrun; discriminate Hrun].
  exists pipes', log'. split; [reflexivity|].
  apply (session_ids_consecutive sample_events sample_pipes sample_pipes
           pipes' log'); [reflexivity | exact Hrun].
Defined.

Lemma results_follow_segments_witness :
  exists st,
    propagate sample_gravity sample_losses sample_pipes
      (1 # 100) 998 (1 # 1000) 200000 = Ok st /\
    map r_id (pipe_results st) = [1; 2]%Z.
Proof.
  run_as st Hrun. exists st. split; [reflexivity|].
  apply (results_follow_segments sample_gravity sample_losses sample_pipes
           (1 # 100) 998 (1 # 1000) 200000 st Hrun).
Defined.

Lemma chain_splits_witness :
  exists st st1 st2,
    propagate sample_gravity sample_losses
      ([sample_pipe1] ++ [sample_pipe2]) (1 # 100) 998 (1 # 1000) 200000 =
      Ok st /\
    propagate sample_gravity sample_losses [sample_pipe1]
      (1 # 100) 998 (1 # 1000) 200000 = Ok st1 /\
    propagate sample_gravity sample_losses [sample_pipe2]
      (1 # 100) 998 (1 # 1000) (current_pressure st1) = Ok st2 /\
    pipe_results st = pipe_results st1 ++ pipe_results st2.
Proof.
  destruct (propagate sample_gravity sample_losses
              ([sample_pipe1] ++ [sample_pipe2])
              (1 # 100) 998 (1 # 1000) 200000)
    as [st|?] eqn:Hrun; [|vm_compute in Hrun; discriminate Hrun].
  destruct (chain_splits sample_gravity sample_losses
              [sample_pipe1] [sample_pipe2]
              (1 # 100) 998 (1 # 1000) 200000 st Hrun)
    as [st1 [st2 [H1 [H2 [H3 _]]]]].
  exists st, st1, st2. repeat split; assumption.
Defined.

Lemma first_failure_propagates_witness :
  propagate sample_gravity sample_losses
    [sample_pipe1; sample_pipe0; sample_pipe2]
    (1 # 100) 998 (1 # 1000) 200000 = Raise ZeroDivisionError.
Proof.
  apply (first_failure_propagates sample_gravity sample_losses
           [sample_pipe1] [sample_pipe2] sample_pipe0
           (1 # 100) 998 (1 # 1000) 200000 ZeroDivisionError).
  - intros p [<- | []]. eexists. vm_compute. reflexivity.
  - reflexivity.
Defined.

Lemma inlet_pressure_shift_witness :
  exists st st',
    propagate sample_gravity sample_losses sample_pipes
      (1 # 100) 998 (1 # 1000) 200000 = Ok st /\
    propagate sample_gravity sample_losses sample_pipes
      (1 # 100) 998 (1 # 1000) (200000 + 5000) = Ok st' /\
    current_pressure st' == current_pressure st + 5000.
Proof.
  destruct (propagate sample_gravity sample_losses sample_pipes
              (1 # 100) 998 (1 # 1000) 200000)
    as [st|?] eqn:Hrun; [|vm_compute in Hrun; discriminate Hrun].
  destruct (inlet_pressure_shift sample_gravity sample_losses sample_pipes
              (1 # 100) 998 (1 # 1000) 200000 5000 st Hrun)
    as [st' [H1 [_ [H2 _]]]].
  exists st, st'. repeat split; assumption.
Defined.

Lemma junction_pressure_witness :
  exists st r,
    propagate sample_gravity sample_losses
      [sample_pipe3; sample_pipe1; sample_pipe2]
      (1 # 100) 998 (1 # 1000) 200000 = Ok st /\
    nth_error (pipe_results st) 2 = Some r /\
    P_in r ==
      200000 - 998 * sample_gravity *
               py_sum (map r_h_total (firstn 2 (pipe_results st))).
Proof.
  run_as st Hrun.
  destruct (nth_error (pipe_results st) 2) as [r|] eqn:Hr.
  2:{ vm_compute in Hrun. injection Hrun as <-. discriminate Hr. }
  exists st, r. split; [reflexivity|]. split; [exact Hr|].
  apply (junction_pressure sample_gravity sample_losses
           [sample_pipe3; sample_pipe1; sample_pipe2]
           (1 # 100) 998 (1 # 1000) 200000 st 2 r Hrun Hr).
Defined.

Lemma profile_point_count_witness :
  exists fig,
    _display_pressure_profile sample_results sample_pipes = Ok fig /\
    List.length (fig_positions fig) = 3%nat /\
    List.length (fig_pressures fig) = 3%nat /\
    List.length (fig_annotations fig) = 2%nat.
Proof.
  run_as fig Hfig. exists fig. split; [reflexivity|].
  apply (profile_point_count sample_results sample_pipes fig Hfig).
Defined.

Lemma profile_positions_witness :
  exists fig,
    _display_pressure_profile sample_results sample_pipes = Ok fig /\
    nth_error (fig_positions fig) 2 =
      Some (py_sum (map length (firstn 2 sample_pipes))).
Proof.
  run_as fig Hfig. exists fig. split; [reflexivity|].
  apply (profile_positions sample_results sample_pipes fig 2 Hfig).
  simpl; lia.
Defined.

Lemma annotation_centred_witness :
  exists fig a x0 x1,
    _display_pressure_profile sample_results sample_pipes = Ok fig /\
    nth_error (fig_annotations fig) 1 = Some a /\
    nth_error (fig_positions fig) 1 = Some x0 /\
    nth_error (fig_positions fig) 2 = Some x1 /\
    a_x a = (x0 + x1) / 2 /\
    a_trecho a = 2%Z.
Proof.
  run_as fig Hfig.
  destruct (annotation_centred sample_results sample_pipes fig 1 sample_pipe2
              Hfig) as [a [x0 [x1 H]]].
  - reflexivity.
  - simpl; lia.
  - exists fig, a, x0, x1. split; [reflexivity | exact H].
Defined.

Lemma profile_positions_monotone_witness :
  exists fig x0 x1,
    _display_pressure_profile sample_results sample_pipes = Ok fig /\
    nth_error (fig_positions fig) 1 = Some x0 /\
    nth_error (fig_positions fig) 2 = Some x1 /\
    x0 <= x1.
Proof.
  run_as fig Hfig.
  destruct (nth_error (fig_positions fig) 1) as [x0|] eqn:H0.
  2:{ vm_compute in Hfig. injection Hfig as <-. discriminate H0. }
  destruct (nth_error (fig_positions fig) 2) as [x1|] eqn:H1.
  2:{ vm_compute in Hfig. injection Hfig as <-. discriminate H1. }
  exists fig, x0, x1. split; [reflexivity|].
  split; [exact H0|]. split; [exact H1|].
  apply (profile_positions_monotone sample_results sample_pipes fig 1 x0 x1);
    try assumption.
  repeat constructor; vm_compute; discriminate.
Defined.

Lemma labels_above_profile_witness :
  exists fig m,
    _display_pressure_profile sample_results sample_pipes = Ok fig /\
    In m (fig_pressures fig) /\
    (forall a, In a (fig_annotations fig) -> a_y a = m * (105 # 100)).
Proof.
  run_as fig Hfig.
  destruct (labels_above_profile sample_results sample_pipes fig Hfig)
    as [m [H1 [_ [H2 _]]]].
  exists fig, m. repeat split; assumption.
Defined.

Lemma profile_of_system_witness :
  exists res fig,
    system_calculation sample_gravity sample_losses sample_sidebar
      sample_pipes = Ok res /\
    _display_pressure_profile (sys_pipe_results res) sample_pipes = Ok fig /\
    nth_error (fig_pressures fig) 0 = Some (200000 / 1000) /\
    nth_error (fig_pressures fig) 2 = Some (sys_pressure_out res / 1000).
Proof.
  destruct (system_calculation sample_gravity sample_losses sample_sidebar
              sample_pipes)
    as [res|?] eqn:Hrun; [|vm_compute in Hrun; discriminate Hrun].
  destruct (profile_of_system sample_gravity sample_losses sample_sidebar
              sample_pipes res Hrun) as [fig [H1 [_ [_ [H2 H3]]]]].
  exists res, fig. repeat split; assumption.
Defined.

Lemma system_calculation_raises_witness :
  exists pipe,
    In pipe [sample_pipe1; sample_pipe0] /\
    sample_losses pipe (1 # 100) 998 (1 # 1000) sample_gravity =
      Raise ZeroDivisionError.
Proof.
  destruct (system_calculation_raises sample_gravity sample_losses
              sample_sidebar [sample_pipe1; sample_pipe0] ZeroDivisionError)
    as [Hflow | [fv [pipe [Hflow [Hin Hraise]]]]].
  - reflexivity.
  - vm_compute in Hflow. discriminate Hflow.
  - exists pipe. split; [exact Hin|].
    unfold flow_specification in Hflow. simpl in Hflow.
    injection Hflow as <-. exact Hraise.
Defined.
